(** * Gemini Image Editor: history, mask and submission protocol

    A shallow embedding of [src/services/geminiService.ts] (the remote-edit
    wrapper [editImageWithGemini] and the React components [ImageDisplay],
    [ChatPanel] and [App] that follow it in the same file) together with
    [src/types.ts].

    React state is modelled by explicit state passing: every [useState]
    cell of a component is a field of a record, every handler is a function
    from the record to the record.  The two asynchronous handlers are cut at
    their [await]: the part before it runs against the state of the render
    that created the handler and captures that render's values in a closure,
    the part after it runs later against whatever the state has become. *)

From Stdlib Require Import ZArith NArith String Ascii List Lia Bool.
From stdpp Require Import base list strings pretty.
Import ListNotations.

Local Open Scope string_scope.
Local Open Scope list_scope.
Local Open Scope Z_scope.

(** ** JavaScript primitives used by the source *)

Module JS.

(** [Array.prototype.slice(start, end)]: negative arguments count from
    the end of the array, both are clamped to [0 .. length]. *)
Definition clampIndex (len i : Z) : Z :=
  if i <? 0 then Z.max (len + i) 0 else Z.min i len.

Definition slice {A} (l : list A) (start end_ : Z) : list A :=
  let len := Z.of_nat (length l) in
  let k := clampIndex len start in
  let final := clampIndex len end_ in
  take (Z.to_nat (Z.max (final - k) 0)) (drop (Z.to_nat k) l).

(** [arr[i]]: [undefined] (here [None]) outside [0 .. length-1]. *)
Definition index {A} (l : list A) (i : Z) : option A :=
  if i <? 0 then None else l !! Z.to_nat i.

(** Strings.  A JavaScript string is held as the bytes of its UTF-8
    encoding, which is what a Rocq string literal holds; a byte from 128
    that starts no well-formed sequence is read as the Latin-1 character of
    that code. *)
Definition byte (a : ascii) : N := N_of_ascii a.

Definition isContinuation (s : string) (n : nat) : bool :=
  match String.get n s with
  | Some a => ((128 <=? byte a) && (byte a <=? 191))%N
  | None => false
  end.

Definition payloadBits (s : string) (n : nat) : N :=
  match String.get n s with
  | Some a => (byte a - 128)%N
  | None => 0%N
  end.

(** The number of bytes that encode the code point at the head of [s]. *)
Definition codePointBytes (s : string) : nat :=
  match s with
  | EmptyString => 1%nat
  | String a _ =>
      let n := byte a in
      if ((194 <=? n) && (n <=? 223))%N && isContinuation s 1 then 2%nat
      else if ((224 <=? n) && (n <=? 239))%N
              && isContinuation s 1 && isContinuation s 2 then 3%nat
      else if ((240 <=? n) && (n <=? 244))%N
              && isContinuation s 1 && isContinuation s 2 && isContinuation s 3
           then 4%nat
      else 1%nat
  end.

(** The code point at the head of [s]. *)
Definition codePointAt (s : string) : N :=
  match s with
  | EmptyString => 0%N
  | String a _ =>
      match codePointBytes s with
      | 2%nat => (byte a - 192) * 64 + payloadBits s 1
      | 3%nat => (byte a - 224) * 4096 + payloadBits s 1 * 64 + payloadBits s 2
      | 4%nat => (byte a - 240) * 262144 + payloadBits s 1 * 4096
                 + payloadBits s 2 * 64 + payloadBits s 3
      | _ => byte a
      end%N
  end.

(** The code points [String.prototype.trim] removes: ECMAScript's
    WhiteSpace (TAB, VT, FF, U+FEFF and the space separators U+0020,
    U+00A0, U+1680, U+2000..U+200A, U+202F, U+205F, U+3000) and
    LineTerminator (LF, CR, U+2028, U+2029). *)
Definition isWhiteSpace (cp : N) : bool :=
  (((9 <=? cp) && (cp <=? 13)) || (cp =? 32) || (cp =? 160) || (cp =? 5760)
   || ((8192 <=? cp) && (cp <=? 8202)) || (cp =? 8232) || (cp =? 8233)
   || (cp =? 8239) || (cp =? 8287) || (cp =? 12288) || (cp =? 65279))%N.

(** The three functions below walk the bytes; [skip] counts the bytes of
    the current code point that are still to be passed. *)
Fixpoint blankFrom (skip : nat) (s : string) : bool :=
  match s with
  | EmptyString => true
  | String _ r =>
      match skip with
      | S k => blankFrom k r
      | O => if isWhiteSpace (codePointAt s)
             then blankFrom (codePointBytes s - 1) r else false
      end
  end.

(** Every code point of [s] is white space. *)
Definition blank (s : string) : bool := blankFrom 0 s.

Fixpoint trimStartFrom (skip : nat) (s : string) : string :=
  match s with
  | EmptyString => EmptyString
  | String _ r =>
      match skip with
      | S k => trimStartFrom k r
      | O => if isWhiteSpace (codePointAt s)
             then trimStartFrom (codePointBytes s - 1) r else s
      end
  end.

Definition trimStart (s : string) : string := trimStartFrom 0 s.

Fixpoint trimEndFrom (skip : nat) (s : string) : string :=
  match s with
  | EmptyString => EmptyString
  | String a r =>
      match skip with
      | S k => String a (trimEndFrom k r)
      | O => if blank s then EmptyString
             else String a (trimEndFrom (codePointBytes s - 1) r)
      end
  end.

Definition trimEnd (s : string) : string := trimEndFrom 0 s.

Definition trim (s : string) : string := trimEnd (trimStart s).

(** Truthiness of a string: every string but the empty one. *)
Definition truthy (s : string) : bool :=
  match s with EmptyString => false | _ => true end.

(** [s.split(sep)] for a one-character separator. *)
Fixpoint split (sep : ascii) (s : string) : list string :=
  match s with
  | EmptyString => [EmptyString]
  | String a r =>
      if Ascii.eqb a sep then EmptyString :: split sep r
      else match split sep r with
           | [] => [String a EmptyString]
           | w :: ws => String a w :: ws
           end
  end.

(** A thrown value: an [Error] object with its [message], or anything
    else. *)
Inductive Thrown :=
| ErrorObj (message : string)
| OtherValue.

End JS.

(** ** [src/types.ts] *)

(** [base64] is declared a string; at run time it holds [undefined] (here
    [None]) when the remote service answers with a blob without data. *)
Record ImageData := mkImageData { base64 : option string; mimeType : string }.

Inductive Role := user.

Record ChatMessage := mkChatMessage { id : string; role : Role; content : string }.

#[global] Instance ImageData_eq_dec : EqDecision ImageData.
Proof. solve_decision. Defined.

#[global] Instance Role_eq_dec : EqDecision Role.
Proof. solve_decision. Defined.

#[global] Instance ChatMessage_eq_dec : EqDecision ChatMessage.
Proof. solve_decision. Defined.

(** ** The remote-edit wrapper (lines 10-54) *)

Module GeminiService.

(** The shapes of [@google/genai] the wrapper touches.  Every field the
    wrapper reads through [?.] is optional, and so are the fields of a
    blob: [None] is a field that is absent ([undefined] when read). *)
Record Blob := mkBlob { data : option string; blobMimeType : option string }.

Record Part := mkPart { inlineData : option Blob; text : option string }.

Record Content := mkContent { parts : option (list Part) }.

Record Candidate := mkCandidate { candContent : option Content }.

Record GenerateContentResponse :=
  mkResponse { candidates : option (list Candidate) }.

Inductive Modality := IMAGE.

Record GenerateContentParameters := mkRequest {
  model : string;
  contents : list Part;
  responseModalities : list Modality
}.

(** [ai.models.generateContent]: the remote service, which either throws
    or resolves with a response. *)
Definition Remote := GenerateContentParameters -> JS.Thrown + GenerateContentResponse.

Definition dquote : string := String "034"%char EmptyString.

Definition maskedPrompt (prompt : string) : string :=
  "This is an image editing task. You are provided with an image and a mask. The user's prompt should be applied to the area highlighted by the mask. Output only the modified image. User prompt: "
    +:+ dquote +:+ prompt +:+ dquote.

Definition inlinePart (img : ImageData) : Part :=
  {| inlineData := Some {| data := base64 img; blobMimeType := Some (mimeType img) |};
     text := None |}.

Definition textPart (t : string) : Part :=
  {| inlineData := None; text := Some t |}.

(** Lines 12-41: the request the wrapper sends. *)
Definition buildRequest (prompt : string) (image : ImageData)
    (mask : option ImageData) : GenerateContentParameters :=
  let parts0 := [inlinePart image] in
  let '(parts1, finalPrompt) :=
    match mask with
    | Some m => (parts0 ++ [inlinePart m], maskedPrompt prompt)
    | None => (parts0, prompt)
    end in
  {| model := "gemini-2.5-flash-image";
     contents := parts1 ++ [textPart finalPrompt];
     responseModalities := [IMAGE] |}.

(** [response.candidates?.[0]?.content?.parts || []] *)
Definition responseParts (r : GenerateContentResponse) : list Part :=
  match candidates r with
  | Some (c :: _) =>
      match candContent c with
      | Some ct => match parts ct with Some ps => ps | None => [] end
      | None => []
      end
  | _ => []
  end.

(** Lines 43-47: the loop that returns at the first part with inline
    data.  It returns that blob's [data] field as it is: [Some None] is
    the loop returning [undefined], [None] is the loop falling through. *)
Fixpoint firstInlineData (ps : list Part) : option (option string) :=
  match ps with
  | [] => None
  | p :: rest =>
      match inlineData p with
      | Some b => Some (data b)
      | None => firstInlineData rest
      end
  end.

Definition noImageError : JS.Thrown :=
  JS.ErrorObj "No image data found in the API response.".

Definition normalizedError : JS.Thrown :=
  JS.ErrorObj "Failed to process the image edit. Please try again.".

(** The body of the [try] block. *)
Definition tryBody (remote : Remote) (prompt : string) (image : ImageData)
    (mask : option ImageData) : JS.Thrown + option string :=
  match remote (buildRequest prompt image mask) with
  | inl e => inl e
  | inr response =>
      match firstInlineData (responseParts response) with
      | Some d => inr d
      | None => inl noImageError
      end
  end.

(** The whole function: the [catch] logs what it caught and throws the
    one normalized error.  [inr None] is the promise resolving with
    [undefined]. *)
Definition editImageWithGemini (remote : Remote) (prompt : string)
    (image : ImageData) (mask : option ImageData) : JS.Thrown + option string :=
  match tryBody remote prompt image mask with
  | inl _ => inl normalizedError
  | inr d => inr d
  end.

End GeminiService.

(** ** The drawing surface

    The overlay [<canvas>] and its 2D context, as far as [ImageDisplay]
    drives them.  The bitmap is kept as a display list: the strokes painted
    since the bitmap was last cleared.  Coordinates are integers here (the
    browser's are floating point). *)

Module Canvas.

Inductive CompositeOperation := SourceOver | DestinationOut.

Record Point := mkPoint { x : Z; y : Z }.

Record Stroke := mkStroke {
  strokeOperation : CompositeOperation;
  strokeColor : string;
  strokeWidth : Z;
  strokePath : list Point
}.

Record Context2D := mkContext {
  lineWidth : Z;
  lineCap : string;
  lineJoin : string;
  globalCompositeOperation : CompositeOperation;
  strokeStyle : string;
  path : list Point
}.

Record t := mkCanvas {
  width : Z;
  height : Z;
  rectLeft : Z;
  rectTop : Z;
  context : option Context2D;   (* [getContext('2d')], which may be null *)
  painted : list Stroke
}.

Definition defaultContext : Context2D :=
  {| lineWidth := 1; lineCap := "butt"; lineJoin := "miter";
     globalCompositeOperation := SourceOver; strokeStyle := "#000000";
     path := [] |}.

(** A canvas element as the browser creates it. *)
Definition fresh : t :=
  {| width := 300; height := 150; rectLeft := 0; rectTop := 0;
     context := Some defaultContext; painted := [] |}.

Definition withContext (f : Context2D -> Context2D) (c : t) : t :=
  {| width := width c; height := height c; rectLeft := rectLeft c;
     rectTop := rectTop c; context := f <$> context c; painted := painted c |}.

Definition withPainted (ps : list Stroke) (c : t) : t :=
  {| width := width c; height := height c; rectLeft := rectLeft c;
     rectTop := rectTop c; context := context c; painted := ps |}.

(** [context?.clearRect(0, 0, canvas.width, canvas.height)] *)
Definition clearAll (c : t) : t :=
  match context c with
  | Some _ => withPainted [] c
  | None => c
  end.

Definition setStyle (w : Z) (op : CompositeOperation) (color : option string)
    (cx : Context2D) : Context2D :=
  {| lineWidth := w; lineCap := "round"; lineJoin := "round";
     globalCompositeOperation := op;
     strokeStyle := default (strokeStyle cx) color;
     path := path cx |}.

Definition setPath (p : list Point) (cx : Context2D) : Context2D :=
  {| lineWidth := lineWidth cx; lineCap := lineCap cx; lineJoin := lineJoin cx;
     globalCompositeOperation := globalCompositeOperation cx;
     strokeStyle := strokeStyle cx; path := p |}.

Definition beginPath : Context2D -> Context2D := setPath [].
Definition moveTo (p : Point) (cx : Context2D) : Context2D := setPath (path cx ++ [p]) cx.
Definition lineTo (p : Point) (cx : Context2D) : Context2D := setPath (path cx ++ [p]) cx.

(** [closePath()] joins the end of the path to its start; it paints
    nothing. *)
Definition closePath (cx : Context2D) : Context2D :=
  match path cx with
  | [] => cx
  | p0 :: _ => setPath (path cx ++ [p0]) cx
  end.

(** [context.stroke()]: paints the current path with the current
    style. *)
Definition stroke (c : t) : t :=
  match context c with
  | Some cx =>
      withPainted (painted c ++
        [{| strokeOperation := globalCompositeOperation cx;
            strokeColor := strokeStyle cx;
            strokeWidth := lineWidth cx;
            strokePath := path cx |}]) c
  | None => c
  end.

(** Assigning [canvas.width] or [canvas.height] clears the bitmap and
    resets the context. *)
Definition resize (w h l tp : Z) (c : t) : t :=
  {| width := w; height := h; rectLeft := l; rectTop := tp;
     context := (fun _ => defaultContext) <$> context c; painted := [] |}.

(** Nothing has been painted since the bitmap was last cleared: every
    pixel is transparent.  (Strokes that were all erased again may leave
    the bitmap transparent as well; this predicate does not look for
    that.) *)
Definition isBlank (c : t) : bool :=
  match painted c with [] => true | _ => false end.

End Canvas.

(** ** [ImageDisplay] (lines 95-322) *)

Module ImageDisplay.

Definition MASK_COLORS : list string :=
  ["rgba(239, 68, 68, 0.7)"; "rgba(59, 130, 246, 0.7)"; "rgba(34, 197, 94, 0.7)"].

Record State := mkState {
  isDrawing : bool;
  isBrushMode : bool;
  isErasing : bool;
  brushSize : Z;
  brushColor : string;
  canvasRef : option Canvas.t     (* [canvasRef.current] *)
}.

Definition initial : State :=
  {| isDrawing := false; isBrushMode := false; isErasing := false;
     brushSize := 15; brushColor := "rgba(239, 68, 68, 0.7)";
     canvasRef := None |}.

Definition setIsDrawing (b : bool) (s : State) : State :=
  {| isDrawing := b; isBrushMode := isBrushMode s; isErasing := isErasing s;
     brushSize := brushSize s; brushColor := brushColor s; canvasRef := canvasRef s |}.

Definition setIsBrushMode (b : bool) (s : State) : State :=
  {| isDrawing := isDrawing s; isBrushMode := b; isErasing := isErasing s;
     brushSize := brushSize s; brushColor := brushColor s; canvasRef := canvasRef s |}.

Definition setIsErasing (b : bool) (s : State) : State :=
  {| isDrawing := isDrawing s; isBrushMode := isBrushMode s; isErasing := b;
     brushSize := brushSize s; brushColor := brushColor s; canvasRef := canvasRef s |}.

Definition setBrushSize (n : Z) (s : State) : State :=
  {| isDrawing := isDrawing s; isBrushMode := isBrushMode s; isErasing := isErasing s;
     brushSize := n; brushColor := brushColor s; canvasRef := canvasRef s |}.

Definition setBrushColor (c : string) (s : State) : State :=
  {| isDrawing := isDrawing s; isBrushMode := isBrushMode s; isErasing := isErasing s;
     brushSize := brushSize s; brushColor := c; canvasRef := canvasRef s |}.

Definition setCanvas (c : option Canvas.t) (s : State) : State :=
  {| isDrawing := isDrawing s; isBrushMode := isBrushMode s; isErasing := isErasing s;
     brushSize := brushSize s; brushColor := brushColor s; canvasRef := c |}.

(** A mouse event, or a touch event read through [e.touches[0]]. *)
Record PointerEvent := mkPointer { clientX : Z; clientY : Z }.

(** What a handler passes to [onMaskChange], if it calls it: [None] is
    no call, [Some None] is [onMaskChange(null)]. *)
Definition MaskCall := option (option ImageData).

Definition clearCanvas (s : State) : State :=
  setCanvas (Canvas.clearAll <$> canvasRef s) s.

(** The effect on [image] (lines 123-126). *)
Definition imageEffect (s : State) : State * MaskCall :=
  (clearCanvas s, Some None).

Definition getMousePos (e : PointerEvent) (s : State) : Canvas.Point :=
  match canvasRef s with
  | None => Canvas.mkPoint 0 0
  | Some c => Canvas.mkPoint (clientX e - Canvas.rectLeft c) (clientY e - Canvas.rectTop c)
  end.

Definition startDrawing (e : PointerEvent) (s : State) : State :=
  if negb (isBrushMode s) then s
  else match canvasRef s with
       | Some c =>
           match Canvas.context c with
           | Some _ =>
               let p := getMousePos e s in
               let style :=
                 if isErasing s
                 then Canvas.setStyle (brushSize s) Canvas.DestinationOut None
                 else Canvas.setStyle (brushSize s) Canvas.SourceOver (Some (brushColor s)) in
               let c' :=
                 Canvas.withContext
                   (fun cx => Canvas.moveTo p (Canvas.beginPath (style cx))) c in
               setCanvas (Some c') (setIsDrawing true s)
           | None => s
           end
       | None => s
       end.

Definition draw (e : PointerEvent) (s : State) : State :=
  if negb (isDrawing s) || negb (isBrushMode s) then s
  else
    let p := getMousePos e s in
    match canvasRef s with
    | Some c =>
        match Canvas.context c with
        | Some _ =>
            setCanvas (Some (Canvas.stroke (Canvas.withContext (Canvas.lineTo p) c))) s
        | None => s
        end
    | None => s
    end.

Section Serialize.

(** [canvas.toDataURL()]: the browser's PNG encoder. *)
Variable toDataURL : Canvas.t -> string.

(** [canvas.toDataURL().split(',')[1]]; a data URL always has a comma,
    and a missing index reads as the empty string here. *)
Definition payload (c : Canvas.t) : string :=
  default EmptyString (JS.split ","%char (toDataURL c) !! 1%nat).

Definition stopDrawing (s : State) : State * MaskCall :=
  if negb (isDrawing s) then (s, None)
  else
    let s1 := setIsDrawing false s in
    match canvasRef s1 with
    | Some c =>
        let c' := Canvas.withContext Canvas.closePath c in
        (setCanvas (Some c') s1,
         Some (Some {| base64 := Some (payload c'); mimeType := "image/png" |}))
    | None => (s1, None)
    end.

End Serialize.

Definition handleClearMask (s : State) : State * MaskCall :=
  (clearCanvas s, Some None).

Definition toggleBrushMode (s : State) : State :=
  let newMode := negb (isBrushMode s) in
  let s1 := setIsBrushMode newMode s in
  if newMode then setIsErasing false s1 else s1.

(** The eraser button and the colour buttons (lines 254-259). *)
Definition selectEraser (s : State) : State := setIsErasing true s.

Definition selectColor (color : string) (s : State) : State :=
  setIsErasing false (setBrushColor color s).

(** The [ResizeObserver] callback (lines 133-140). *)
Definition onResize (w h l tp : Z) (s : State) : State :=
  setCanvas (Canvas.resize w h l tp <$> canvasRef s) s.

End ImageDisplay.

(** ** [App] (lines 387-522) and [ChatPanel]'s submit guard (lines 339-344) *)

Module App.

Record State := mkState {
  image : option ImageData;
  messages : list ChatMessage;
  prompt : string;
  loading : bool;
  error : option string;
  history : list ImageData;
  historyIndex : Z;
  mask : option ImageData
}.

Definition initial : State :=
  {| image := None; messages := []; prompt := EmptyString; loading := false;
     error := None; history := []; historyIndex := -1; mask := None |}.

Definition setImage (v : option ImageData) (s : State) : State :=
  {| image := v; messages := messages s; prompt := prompt s; loading := loading s;
     error := error s; history := history s; historyIndex := historyIndex s;
     mask := mask s |}.

Definition setMessages (f : list ChatMessage -> list ChatMessage) (s : State) : State :=
  {| image := image s; messages := f (messages s); prompt := prompt s;
     loading := loading s; error := error s; history := history s;
     historyIndex := historyIndex s; mask := mask s |}.

Definition setPrompt (v : string) (s : State) : State :=
  {| image := image s; messages := messages s; prompt := v; loading := loading s;
     error := error s; history := history s; historyIndex := historyIndex s;
     mask := mask s |}.

Definition setLoading (v : bool) (s : State) : State :=
  {| image := image s; messages := messages s; prompt := prompt s; loading := v;
     error := error s; history := history s; historyIndex := historyIndex s;
     mask := mask s |}.

Definition setError (v : option string) (s : State) : State :=
  {| image := image s; messages := messages s; prompt := prompt s;
     loading := loading s; error := v; history := history s;
     historyIndex := historyIndex s; mask := mask s |}.

Definition setHistory (v : list ImageData) (s : State) : State :=
  {| image := image s; messages := messages s; prompt := prompt s;
     loading := loading s; error := error s; history := v;
     historyIndex := historyIndex s; mask := mask s |}.

Definition setHistoryIndex (v : Z) (s : State) : State :=
  {| image := image s; messages := messages s; prompt := prompt s;
     loading := loading s; error := error s; history := history s;
     historyIndex := v; mask := mask s |}.

Definition setMask (v : option ImageData) (s : State) : State :=
  {| image := image s; messages := messages s; prompt := prompt s;
     loading := loading s; error := error s; history := history s;
     historyIndex := historyIndex s; mask := v |}.

(** *** [handleImageUpload] (lines 397-413), cut at [await fileToData] *)

Definition handleImageUpload_begin (s : State) : State :=
  setError None (setLoading true s).

Definition handleImageUpload_settle (r : JS.Thrown + ImageData) (s : State) : State :=
  setLoading false
    match r with
    | inr imageData =>
        setMask None (setMessages (fun _ => [])
          (setHistoryIndex 0 (setHistory [imageData] (setImage (Some imageData) s))))
    | inl _ => setError (Some "Failed to load image. Please try another file.") s
    end.

(** *** [handleSubmitPrompt] (lines 415-444), cut at
    [await editImageWithGemini]

    The values the callback closes over are those of the render that
    created it ([useCallback] with dependencies
    [image, history, historyIndex, mask]). *)

Record Closure := mkClosure {
  currentPrompt : string;
  capturedImage : ImageData;
  capturedHistory : list ImageData;
  capturedIndex : Z;
  capturedMask : option ImageData
}.

(** [Date.now().toString()] with the clock reading passed in. *)
Definition newMessage (now : Z) (currentPrompt : string) : ChatMessage :=
  {| id := pretty now; role := user; content := currentPrompt |}.

Definition handleSubmitPrompt_begin (now : Z) (currentPrompt : string)
    (s : State) : State * option Closure :=
  match image s with
  | None =>
      (setError (Some "Please upload an image before submitting a prompt.") s, None)
  | Some img =>
      let s1 := setPrompt EmptyString (setError None (setLoading true s)) in
      let s2 := setMessages (fun prev => prev ++ [newMessage now currentPrompt]) s1 in
      (s2, Some {| currentPrompt := currentPrompt; capturedImage := img;
                   capturedHistory := history s; capturedIndex := historyIndex s;
                   capturedMask := mask s |})
  end.

Definition withBase64 (img : ImageData) (b : option string) : ImageData :=
  {| base64 := b; mimeType := mimeType img |}.

Definition errorMessage (err : JS.Thrown) : string :=
  match err with
  | JS.ErrorObj m => m
  | JS.OtherValue => "An unknown error occurred."
  end.

Definition handleSubmitPrompt_settle (cl : Closure) (r : JS.Thrown + option string)
    (s : State) : State :=
  setLoading false
    match r with
    | inr newImageBase64 =>
        let newImageData := withBase64 (capturedImage cl) newImageBase64 in
        let newHistory :=
          JS.slice (capturedHistory cl) 0 (capturedIndex cl + 1) ++ [newImageData] in
        setMask None (setImage (Some newImageData)
          (setHistoryIndex (Z.of_nat (length newHistory) - 1)
             (setHistory newHistory s)))
    | inl err =>
        setMessages (fun prev => JS.slice prev 0 (-1))
          (setError (Some (errorMessage err)) s)
    end.

(** The call the callback makes between the two halves. *)
Definition remoteEdit (remote : GeminiService.Remote) (cl : Closure)
    : JS.Thrown + option string :=
  GeminiService.editImageWithGemini remote (currentPrompt cl) (capturedImage cl)
    (capturedMask cl).

(** One submission run from start to end with nothing in between. *)
Definition handleSubmitPrompt (remote : GeminiService.Remote) (now : Z)
    (currentPrompt : string) (s : State) : State :=
  match handleSubmitPrompt_begin now currentPrompt s with
  | (s1, Some cl) => handleSubmitPrompt_settle cl (remoteEdit remote cl) s1
  | (s1, None) => s1
  end.

(** *** [handleUndo], [handleRedo], [handleClearImage] (lines 446-474) *)

Definition canUndo (s : State) : bool := 0 <? historyIndex s.

Definition canRedo (s : State) : bool :=
  historyIndex s <? Z.of_nat (length (history s)) - 1.

Definition handleUndo (s : State) : State :=
  if 0 <? historyIndex s then
    let newIndex := historyIndex s - 1 in
    setMask None (setImage (JS.index (history s) newIndex) (setHistoryIndex newIndex s))
  else s.

Definition handleRedo (s : State) : State :=
  if historyIndex s <? Z.of_nat (length (history s)) - 1 then
    let newIndex := historyIndex s + 1 in
    setMask None (setImage (JS.index (history s) newIndex) (setHistoryIndex newIndex s))
  else s.

Definition handleClearImage (s : State) : State :=
  setError None (setMask None (setHistoryIndex (-1) (setHistory []
    (setMessages (fun _ => []) (setImage None s))))).

(** *** [ChatPanel]'s [handleSubmit] with the props [App] passes it *)

Definition imageLoaded (s : State) : bool :=
  match image s with Some _ => true | None => false end.

Definition ChatPanel_handleSubmit (now : Z) (s : State) : State * option Closure :=
  if JS.truthy (JS.trim (prompt s)) && negb (loading s) && imageLoaded s
  then handleSubmitPrompt_begin now (prompt s) s
  else (s, None).

End App.

(** ** The session: both components, the requests in flight, and the
    events that drive them *)

Module Session.

Record World := mkWorld {
  app : App.State;
  display : ImageDisplay.State;
  inflight : list App.Closure;    (* submissions awaiting the remote edit *)
  uploads : nat                   (* files being read by [fileToData] *)
}.

Definition initial : World :=
  {| app := App.initial; display := ImageDisplay.initial; inflight := []; uploads := 0 |}.

Inductive Event :=
| PickFile                                   (* [onImageUpload(file)] *)
| FileSettled (r : JS.Thrown + ImageData)    (* [fileToData] resolves or rejects *)
| TypePrompt (t : string)
| SubmitForm (now : Z)
| EditSettled (n : nat) (remote : GeminiService.Remote)
| Undo
| Redo
| ClearImage
| DismissError
| ToggleBrush
| PickEraser
| PickColor (c : string)
| SetBrushSize (n : Z)
| PointerDown (e : ImageDisplay.PointerEvent)
| PointerMove (e : ImageDisplay.PointerEvent)
| PointerUp                                  (* mouse up, mouse leave, touch end *)
| ClearMask
| Resized (w h l tp : Z).

Definition applyMaskCall (mc : ImageDisplay.MaskCall) (a : App.State) : App.State :=
  match mc with
  | Some m => App.setMask m a
  | None => a
  end.

(** The [<canvas>] exists exactly while an image is shown (lines
    288-302). *)
Definition mountCanvas (a : App.State) (d : ImageDisplay.State) : ImageDisplay.State :=
  match App.image a, ImageDisplay.canvasRef d with
  | None, _ => ImageDisplay.setCanvas None d
  | Some _, None => ImageDisplay.setCanvas (Some Canvas.fresh) d
  | Some _, Some _ => d
  end.

(** Rendering after a handler: mount or unmount the canvas, and run the
    effect on [image] when the handler stored a new [image]. *)
Definition render (newImage : bool) (a : App.State) (d : ImageDisplay.State)
    (fl : list App.Closure) (up : nat) : World :=
  let d1 := mountCanvas a d in
  if newImage then
    let '(d2, mc) := ImageDisplay.imageEffect d1 in
    {| app := applyMaskCall mc a; display := d2; inflight := fl; uploads := up |}
  else {| app := a; display := d1; inflight := fl; uploads := up |}.

Definition isOk {E A} (r : E + A) : bool :=
  match r with inr _ => true | inl _ => false end.

Section Step.

Variable toDataURL : Canvas.t -> string.

Definition step (ev : Event) (w : World) : World :=
  let a := app w in
  let d := display w in
  let onDisplay d' := render false a d' (inflight w) (uploads w) in
  match ev with
  | PickFile =>
      render false (App.handleImageUpload_begin a) d (inflight w) (S (uploads w))
  | FileSettled r =>
      match uploads w with
      | O => w
      | S n => render (isOk r) (App.handleImageUpload_settle r a) d (inflight w) n
      end
  | TypePrompt t =>
      if App.imageLoaded a && negb (App.loading a)
      then render false (App.setPrompt t a) d (inflight w) (uploads w)
      else w
  | SubmitForm now =>
      let '(a', call) := App.ChatPanel_handleSubmit now a in
      render false a' d (inflight w ++ option_list call) (uploads w)
  | EditSettled n remote =>
      match inflight w !! n with
      | Some cl =>
          let r := App.remoteEdit remote cl in
          render (isOk r) (App.handleSubmitPrompt_settle cl r a) d
            (delete n (inflight w)) (uploads w)
      | None => w
      end
  | Undo => render (App.canUndo a) (App.handleUndo a) d (inflight w) (uploads w)
  | Redo => render (App.canRedo a) (App.handleRedo a) d (inflight w) (uploads w)
  | ClearImage =>
      render (App.imageLoaded a) (App.handleClearImage a) d (inflight w) (uploads w)
  | DismissError => render false (App.setError None a) d (inflight w) (uploads w)
  | ToggleBrush => onDisplay (ImageDisplay.toggleBrushMode d)
  | PickEraser => onDisplay (ImageDisplay.selectEraser d)
  | PickColor c => onDisplay (ImageDisplay.selectColor c d)
  | SetBrushSize n => onDisplay (ImageDisplay.setBrushSize n d)
  | PointerDown e => onDisplay (ImageDisplay.startDrawing e d)
  | PointerMove e => onDisplay (ImageDisplay.draw e d)
  | PointerUp =>
      let '(d', mc) := ImageDisplay.stopDrawing toDataURL d in
      render false (applyMaskCall mc a) d' (inflight w) (uploads w)
  | ClearMask =>
      let '(d', mc) := ImageDisplay.handleClearMask d in
      render false (applyMaskCall mc a) d' (inflight w) (uploads w)
  | Resized wd h l tp => onDisplay (ImageDisplay.onResize wd h l tp d)
  end.

Definition run (evs : list Event) (w : World) : World :=
  fold_left (fun w' ev => step ev w') evs w.

Definition reachable (w : World) : Prop :=
  exists evs, w = run evs initial.

End Step.

(** The events whose handlers call [setHistory]: a file that has been
    read, an edit that has come back, and "clear image". *)
Definition writesHistory (ev : Event) : bool :=
  match ev with
  | FileSettled _ | EditSettled _ _ | ClearImage => true
  | _ => false
  end.

End Session.

(** ** Properties of the history *)

(** The cursor is a valid index of a non-empty sequence, and [-1] exactly
    on the empty one. *)
Definition cursorValid (s : App.State) : Prop :=
  (App.history s <> [] ->
     0 <= App.historyIndex s < Z.of_nat (length (App.history s))) /\
  (App.historyIndex s = -1 <-> App.history s = []).

(** The displayed image is the entry under the cursor, or absent when
    there is no entry. *)
Definition showsCursorEntry (s : App.State) : Prop :=
  match App.history s with
  | [] => App.image s = None
  | _ :: _ =>
      exists img, App.image s = Some img /\
                  JS.index (App.history s) (App.historyIndex s) = Some img
  end.

(** Both together: the invariant of the history store. *)
Definition historyConsistent (s : App.State) : Prop :=
  cursorValid s /\ showsCursorEntry s.

(** ** Sample data *)

Module Sample.

Definition png (b : string) : ImageData :=
  {| base64 := Some b; mimeType := "image/png" |}.

Definition A := png "QUFB".
Definition B := png "QkJC".
Definition C := png "Q0ND".
Definition D := png "RERE".

(** A browser stand-in that encodes every canvas as the same PNG. *)
Definition constantEncoder (_ : Canvas.t) : string := "data:image/png;base64,iVBORw0KGgo=".

(** A remote that answers with one inline image. *)
Definition remoteReturning (b : string) : GeminiService.Remote :=
  fun _ => inr (GeminiService.mkResponse (Some
    [GeminiService.mkCandidate (Some (GeminiService.mkContent (Some
      [GeminiService.textPart "done";
       GeminiService.mkPart
         (Some (GeminiService.mkBlob (Some b) (Some "image/png"))) None])))])).

(** A remote whose transport fails. *)
Definition remoteFailing : GeminiService.Remote :=
  fun _ => inl (JS.ErrorObj "fetch failed").

(** A remote that answers with text only. *)
Definition remoteTextOnly : GeminiService.Remote :=
  fun _ => inr (GeminiService.mkResponse (Some
    [GeminiService.mkCandidate (Some (GeminiService.mkContent (Some
      [GeminiService.textPart "I cannot edit this image."])))])).

(** History [A, B, C] with the cursor on [C]. *)
Definition threeVersions : App.State :=
  {| App.image := Some C; App.messages := []; App.prompt := "add a hat";
     App.loading := false; App.error := None; App.history := [A; B; C];
     App.historyIndex := 2; App.mask := None |}.

(** The scenario of the specification: upload, edit, step back, edit
    again, try to step forward. *)
Definition scenario : list Session.Event :=
  [Session.PickFile; Session.FileSettled (inr A);
   Session.TypePrompt "make it grayscale"; Session.SubmitForm 1700000000000;
   Session.EditSettled 0 (remoteReturning "QkJC");
   Session.Undo;
   Session.TypePrompt "add a hat"; Session.SubmitForm 1700000060000;
   Session.EditSettled 0 (remoteReturning "RERE");
   Session.Redo].

(** Upload, one edit, then a brush stroke over the edited image. *)
Definition editedAndMasked : list Session.Event :=
  [Session.PickFile; Session.FileSettled (inr A);
   Session.TypePrompt "make it grayscale"; Session.SubmitForm 1700000000000;
   Session.EditSettled 0 (remoteReturning "QkJC");
   Session.ToggleBrush;
   Session.PointerDown (ImageDisplay.mkPointer 10 10);
   Session.PointerMove (ImageDisplay.mkPointer 40 25);
   Session.PointerUp].

(** Upload, enter brush mode, clear the mask, press the pointer without
    moving it. *)
Definition pressedOnClearedMask : list Session.Event :=
  [Session.PickFile; Session.FileSettled (inr A);
   Session.ToggleBrush; Session.ClearMask;
   Session.PointerDown (ImageDisplay.mkPointer 10 10)].

End Sample.

(** ** File intake: [fileToData] (lines 59-87) and [handleImageUpload] run
    from start to end *)

Module FileIntake.

(** [event.target?.result] of the reader's load event: a string after
    [readAsDataURL], or something else. *)
Inductive ReadResult :=
| ResultString (dataUrl : string)
| ResultOther.

(** The browser as [fileToData] drives it.  [None] stands for the error
    event of the reader or of the image element. *)
Record Browser (File Img : Type) := mkBrowser {
  readAsDataURL : File -> option ReadResult;
  decode : string -> option Img;       (* [img.src = ...], then load or error *)
  getContext2d : Img -> bool;          (* a canvas of the image's size gives a context *)
  toPngDataURL : Img -> string         (* [drawImage(img, 0, 0)], [toDataURL('image/png')] *)
}.

Arguments readAsDataURL {File Img}.
Arguments decode {File Img}.
Arguments getContext2d {File Img}.
Arguments toPngDataURL {File Img}.

(** The promise's outcome: [inl] is the value it rejects with.  The two
    [onerror] handlers are [reject] itself, so they reject with the event,
    which is not an [Error]. *)
Definition fileToData {File Img} (b : Browser File Img) (file : File)
    : JS.Thrown + ImageData :=
  match readAsDataURL b file with
  | None => inl JS.OtherValue
  | Some ResultOther => inl (JS.ErrorObj "Failed to read file.")
  | Some (ResultString url) =>
      match decode b url with
      | None => inl JS.OtherValue
      | Some img =>
          if getContext2d b img then
            let dataUrl := toPngDataURL b img in
            inr {| base64 :=
                     Some (default EmptyString (JS.split ","%char dataUrl !! 1%nat));
                   mimeType := "image/png" |}
          else inl (JS.ErrorObj "Could not get canvas context")
      end
  end.

(** [handleImageUpload] with nothing between its two halves. *)
Definition handleImageUpload {File Img} (b : Browser File Img) (file : File)
    (s : App.State) : App.State :=
  App.handleImageUpload_settle (fileToData b file) (App.handleImageUpload_begin s).

End FileIntake.

(** ** Download: [handleDownload] (lines 223-232) *)

Module Download.

(** The anchor element the handler clicks.  The template literal renders
    an [undefined] payload as the text "undefined". *)
Record Link := mkLink { href : string; download : string }.

Definition handleDownload (now : Z) (image : option ImageData) : option Link :=
  match image with
  | None => None
  | Some im =>
      Some {| href := "data:" +:+ mimeType im +:+ ";base64,"
                      +:+ default "undefined" (base64 im);
              download := "gemini-edit-" +:+ pretty now +:+ ".png" |}
  end.

End Download.

(** ** Predicates used to state properties of runs *)

Module Facts.

Fixpoint occurs (sep : ascii) (s : string) : bool :=
  match s with
  | EmptyString => false
  | String a r => Ascii.eqb a sep || occurs sep r
  end.

(** How many remote edits have come back along a list of events. *)
Fixpoint editsSettled (evs : list Session.Event) : nat :=
  match evs with
  | [] => 0
  | Session.EditSettled _ _ :: rest => S (editsSettled rest)
  | _ :: rest => editsSettled rest
  end.

(** A closure whose captured image is the entry under its captured
    cursor. *)
Definition closureConsistent (cl : App.Closure) : Prop :=
  0 <= App.capturedIndex cl < Z.of_nat (length (App.capturedHistory cl)) /\
  JS.index (App.capturedHistory cl) (App.capturedIndex cl) = Some (App.capturedImage cl).

(** The overlay has no painted stroke, or is not mounted. *)
Definition surfaceBlank (d : ImageDisplay.State) : bool :=
  match ImageDisplay.canvasRef d with
  | Some c => Canvas.isBlank c
  | None => true
  end.

Definition isPng (img : ImageData) : Prop := mimeType img = "image/png".

(** Every file that is read along the run arrives as PNG, as [fileToData]
    delivers it. *)
Definition uploadsArePng (evs : list Session.Event) : Prop :=
  Forall (fun ev =>
            match ev with
            | Session.FileSettled (inr img) => isPng img
            | _ => True
            end) evs.

Definition isPointerMove (ev : Session.Event) : bool :=
  match ev with Session.PointerMove _ => true | _ => false end.

Definition isFileSettled (ev : Session.Event) : bool :=
  match ev with Session.FileSettled _ => true | _ => false end.

(** The events whose handlers write neither history, cursor, image nor
    log, and start or settle no edit: picking a file, typing, dismissing
    the banner, and everything on the overlay. *)
Definition quiet (ev : Session.Event) : bool :=
  match ev with
  | Session.FileSettled _ | Session.SubmitForm _ | Session.EditSettled _ _
  | Session.Undo | Session.Redo | Session.ClearImage => false
  | _ => true
  end.

(** A mounted canvas has its 2D context. *)
Definition contextReady (d : ImageDisplay.State) : Prop :=
  forall c, ImageDisplay.canvasRef d = Some c -> Canvas.context c <> None.

End Facts.

(** ** More sample data *)

Module SampleBrowser.

(** Files are named by their content; every file decodes, and the canvas
    re-encodes it as PNG. *)
Definition working : FileIntake.Browser string string :=
  {| FileIntake.readAsDataURL :=
       fun f => Some (FileIntake.ResultString ("data:image/jpeg;base64," +:+ f));
     FileIntake.decode := fun url => Some url;
     FileIntake.getContext2d := fun _ => true;
     FileIntake.toPngDataURL := fun _ => "data:image/png;base64,QUFB" |}.

(** The same browser, but no file decodes as an image. *)
Definition undecodable : FileIntake.Browser string string :=
  {| FileIntake.readAsDataURL :=
       fun f => Some (FileIntake.ResultString ("data:text/plain;base64," +:+ f));
     FileIntake.decode := fun _ => None;
     FileIntake.getContext2d := fun _ => true;
     FileIntake.toPngDataURL := fun _ => "data:image/png;base64,QUFB" |}.

(** A display in brush mode over a mounted, untouched canvas. *)
Definition brushReady : ImageDisplay.State :=
  ImageDisplay.setCanvas (Some Canvas.fresh)
    (ImageDisplay.toggleBrushMode ImageDisplay.initial).

(** A submission in flight when the user clears the image. *)
Definition clearedInFlight : list Session.Event :=
  [Session.PickFile; Session.FileSettled (inr Sample.A);
   Session.TypePrompt "make it grayscale"; Session.SubmitForm 1700000000000;
   Session.ClearImage].

(** Prompts made of white space that is not ASCII, as UTF-8 bytes:
    U+00A0 (no-break space), U+3000 (ideographic space), U+FEFF. *)
Definition nbsp : string := String "194"%char (String "160"%char EmptyString).

Definition ideographicSpace : string :=
  String "227"%char (String "128"%char (String "128"%char EmptyString)).

Definition byteOrderMark : string :=
  String "239"%char (String "187"%char (String "191"%char EmptyString)).

(** An image is displayed and the input holds only such white space. *)
Definition blankUnicodePrompt : App.State :=
  App.setPrompt (nbsp +:+ " " +:+ ideographicSpace +:+ byteOrderMark)
    Sample.threeVersions.

(** A remote whose first inline part is a blob without data, followed by
    a part that holds an image. *)
Definition remoteDataless : GeminiService.Remote :=
  fun _ => inr (GeminiService.mkResponse (Some
    [GeminiService.mkCandidate (Some (GeminiService.mkContent (Some
       [GeminiService.textPart "Here is your image.";
        GeminiService.mkPart
          (Some (GeminiService.mkBlob None (Some "image/png"))) None;
        GeminiService.mkPart
          (Some (GeminiService.mkBlob (Some "RERE") (Some "image/png"))) None])))])).

(** Upload, one successful edit, and a second instruction typed in: the
    state just before a second submission. *)
Definition beforeSecondEdit : list Session.Event :=
  [Session.PickFile; Session.FileSettled (inr Sample.A);
   Session.TypePrompt "make it grayscale"; Session.SubmitForm 1700000000000;
   Session.EditSettled 0 (Sample.remoteReturning "QkJC");
   Session.TypePrompt "add a hat"].

(** The second submission fails after the user has stepped back. *)
Definition failsAfterUndo : list Session.Event :=
  [Session.SubmitForm 1700000060000; Session.Undo;
   Session.EditSettled 0 Sample.remoteFailing].

(** The second submission fails after the user has cleared the image. *)
Definition failsAfterClear : list Session.Event :=
  [Session.SubmitForm 1700000060000; Session.ClearImage;
   Session.EditSettled 0 Sample.remoteFailing].

(** What the user does on the overlay while the edit is in flight. *)
Definition paintsInFlight : list Session.Event :=
  [Session.ToggleBrush;
   Session.PointerDown (ImageDisplay.mkPointer 10 10);
   Session.PointerMove (ImageDisplay.mkPointer 40 25);
   Session.PointerUp; Session.DismissError].

(** A remote whose first candidate is text and whose second candidate
    holds the image. *)
Definition imageInSecondCandidate : GeminiService.Remote :=
  fun _ => inr (GeminiService.mkResponse (Some
    [GeminiService.mkCandidate (Some (GeminiService.mkContent (Some
       [GeminiService.textPart "Here is your image."])));
     GeminiService.mkCandidate (Some (GeminiService.mkContent (Some
       [GeminiService.mkPart
          (Some (GeminiService.mkBlob (Some "RERE") (Some "image/png"))) None])))])).

End SampleBrowser.

(** ** Lemmas on the JavaScript primitives *)

Lemma slice_prefix {A} (l : list A) (n : Z) :
  0 <= n -> JS.slice l 0 n = take (Z.to_nat n) l.
Proof.
  intros Hn. unfold JS.slice, JS.clampIndex.
  destruct (Z.ltb_spec n 0) as [?|_]; [lia|].
  destruct (Z.ltb_spec 0 0) as [?|_]; [lia|].
  rewrite (Z.min_l 0) by lia. change (Z.to_nat 0) with 0%nat. rewrite drop_0.
  destruct (Z.le_gt_cases n (Z.of_nat (length l))) as [Hle|Hgt].
  - rewrite Z.min_l, Z.sub_0_r, Z.max_l by lia. reflexivity.
  - rewrite Z.min_r, Z.sub_0_r, Z.max_l by lia.
    rewrite !take_ge by lia. reflexivity.
Qed.

Lemma slice_drop_last {A} (l : list A) (x : A) :
  JS.slice (l ++ [x]) 0 (-1) = l.
Proof.
  unfold JS.slice, JS.clampIndex.
  destruct (Z.ltb_spec (-1) 0) as [_|?]; [|lia].
  destruct (Z.ltb_spec 0 0) as [?|_]; [lia|].
  rewrite length_app. simpl length.
  rewrite (Z.min_l 0) by lia. change (Z.to_nat 0) with 0%nat. rewrite drop_0.
  replace (Z.to_nat _) with (length l) by lia.
  apply take_app_length.
Qed.

Lemma slice_nil_drop_last {A} : JS.slice (@nil A) 0 (-1) = [].
Proof. reflexivity. Qed.

Lemma index_in_range {A} (l : list A) (i : Z) :
  0 <= i < Z.of_nat (length l) -> exists x, JS.index l i = Some x.
Proof.
  intros [H0 H1]. unfold JS.index.
  destruct (Z.ltb_spec i 0); [lia|].
  apply lookup_lt_is_Some_2. lia.
Qed.

Lemma index_last {A} (l : list A) (x : A) :
  JS.index (l ++ [x]) (Z.of_nat (length (l ++ [x])) - 1) = Some x.
Proof.
  unfold JS.index. rewrite length_app. simpl length.
  destruct (Z.ltb_spec (Z.of_nat (length l + 1) - 1) 0); [lia|].
  replace (Z.to_nat _) with (length l) by lia.
  rewrite lookup_app_r by lia. rewrite Nat.sub_diag. reflexivity.
Qed.

(** ** The remote-edit wrapper *)

(** The loop of lines 43-47 stops at the first part that carries inline
    data. *)
Lemma firstInlineData_Some ps d :
  GeminiService.firstInlineData ps = Some d ->
  exists pre p post b,
    ps = pre ++ p :: post /\
    Forall (fun q => GeminiService.inlineData q = None) pre /\
    GeminiService.inlineData p = Some b /\ GeminiService.data b = d.
Proof.
  induction ps as [|q ps IH]; simpl; [discriminate|].
  destruct (GeminiService.inlineData q) as [b|] eqn:Hq.
  - intros [= <-]. exists [], q, ps, b. repeat split; auto.
  - intros H. destruct (IH H) as (pre & p & post & b & -> & Hpre & Hp & Hd).
    exists (q :: pre), p, post, b. repeat split; auto.
Qed.

Lemma firstInlineData_None ps :
  GeminiService.firstInlineData ps = None ->
  Forall (fun q => GeminiService.inlineData q = None) ps.
Proof.
  induction ps as [|q ps IH]; simpl; [constructor|].
  destruct (GeminiService.inlineData q) eqn:Hq; [discriminate|].
  intros H. constructor; auto.
Qed.

Lemma firstInlineData_at ps pre p post b :
  ps = pre ++ p :: post ->
  Forall (fun q => GeminiService.inlineData q = None) pre ->
  GeminiService.inlineData p = Some b ->
  GeminiService.firstInlineData ps = Some (GeminiService.data b).
Proof.
  intros -> Hpre Hp. induction Hpre as [|q pre Hq _ IH]; simpl.
  - now rewrite Hp.
  - now rewrite Hq.
Qed.

Lemma firstInlineData_absent ps :
  Forall (fun q => GeminiService.inlineData q = None) ps ->
  GeminiService.firstInlineData ps = None.
Proof.
  induction 1 as [|q ps Hq _ IH]; simpl; [reflexivity|]. now rewrite Hq.
Qed.

(** C7, the code at the input the claim is right about and the code
    misses: the response's first part with inline data is a blob without
    data, and a later part holds an image.  The wrapper tests only
    [part.inlineData] and returns [part.inlineData.data]: the promise
    resolves with [undefined], which is neither the image payload found in
    the response nor the normalized error. *)
Lemma editImageWithGemini_resolves_undefined_on_dataless_blob :
  GeminiService.firstInlineData
    [GeminiService.textPart "Here is your image.";
     GeminiService.mkPart (Some (GeminiService.mkBlob None (Some "image/png"))) None;
     GeminiService.mkPart
       (Some (GeminiService.mkBlob (Some "RERE") (Some "image/png"))) None]
    = Some None /\
  GeminiService.editImageWithGemini SampleBrowser.remoteDataless "add a hat"
    Sample.A None = inr None /\
  GeminiService.editImageWithGemini SampleBrowser.remoteDataless "add a hat"
    Sample.A None
    <> inl (JS.ErrorObj "Failed to process the image edit. Please try again.") /\
  GeminiService.editImageWithGemini SampleBrowser.remoteDataless "add a hat"
    Sample.A None <> inr (Some "RERE").
Proof. repeat split; discriminate. Qed.

(** ** The submission protocol *)

Lemma begin_with_image now p s img :
  App.image s = Some img ->
  App.handleSubmitPrompt_begin now p s =
    (App.setMessages (fun prev => prev ++ [App.newMessage now p])
       (App.setPrompt EmptyString (App.setError None (App.setLoading true s))),
     Some {| App.currentPrompt := p; App.capturedImage := img;
             App.capturedHistory := App.history s;
             App.capturedIndex := App.historyIndex s;
             App.capturedMask := App.mask s |}).
Proof. intros H. unfold App.handleSubmitPrompt_begin. now rewrite H. Qed.

(** The failure branch touches [error], [messages] and [loading] only. *)
Lemma settle_failure_frame cl err s :
  let s' := App.handleSubmitPrompt_settle cl (inl err) s in
  App.history s' = App.history s /\
  App.historyIndex s' = App.historyIndex s /\
  App.image s' = App.image s /\
  App.mask s' = App.mask s /\
  App.prompt s' = App.prompt s /\
  App.messages s' = JS.slice (App.messages s) 0 (-1).
Proof. cbv zeta. repeat split. Qed.

(** C1: committing a successful edit on history [h] with cursor [k] leaves
    [take (k+1) h ++ [next]] with the cursor on the new last index [k+1];
    the entries strictly after [k] are gone. *)
Theorem commit_truncates_then_appends
    (remote : GeminiService.Remote) (now : Z) (p : string) (s : App.State)
    (h : list ImageData) (k : Z) (img : ImageData) (d : option string) :
  App.history s = h ->
  App.historyIndex s = k ->
  0 <= k < Z.of_nat (length h) ->
  App.image s = Some img ->
  GeminiService.editImageWithGemini remote p img (App.mask s) = inr d ->
  let s' := App.handleSubmitPrompt remote now p s in
  let next := App.withBase64 img d in
  App.history s' = take (Z.to_nat (k + 1)) h ++ [next] /\
  App.historyIndex s' = k + 1 /\
  App.historyIndex s' = Z.of_nat (length (App.history s')) - 1 /\
  App.image s' = Some next.
Proof.
  intros Hh Hk Hrange Himg Hedit. cbv zeta.
  unfold App.handleSubmitPrompt. rewrite (begin_with_image _ _ _ _ Himg).
  unfold App.remoteEdit. cbn [App.currentPrompt App.capturedImage App.capturedMask].
  rewrite Hedit. unfold App.handleSubmitPrompt_settle.
  cbn [App.capturedHistory App.capturedIndex App.capturedImage].
  rewrite Hh, Hk. rewrite slice_prefix by lia. cbn.
  rewrite length_app, length_take. simpl length.
  repeat split; lia.
Qed.

(** The scenario of the specification: [A, B, C] at cursor 2, one step
    back, then a commit of [D] gives [A, B, D] at cursor 2. *)
Lemma commit_truncates_then_appends_witness :
  let s := App.handleUndo Sample.threeVersions in
  let s' := App.handleSubmitPrompt (Sample.remoteReturning "RERE") 1700000000000
              "add a hat" s in
  (App.history s = [Sample.A; Sample.B; Sample.C] /\ App.historyIndex s = 1 /\
   App.image s = Some Sample.B) /\
  (App.history s' = [Sample.A; Sample.B; Sample.D] /\
   App.historyIndex s' = 2 /\
   App.historyIndex s' = Z.of_nat (length (App.history s')) - 1 /\
   App.image s' = Some Sample.D).
Proof.
  split; [repeat split|].
  apply (commit_truncates_then_appends (Sample.remoteReturning "RERE") 1700000000000
           "add a hat" (App.handleUndo Sample.threeVersions)
           [Sample.A; Sample.B; Sample.C] 1 Sample.B (Some "RERE"));
    first [reflexivity | simpl; lia].
Defined.

(** A submission run from start to end whose remote edit fails: history,
    cursor and image are as before, and the log is the log from before the
    submission.  The failure branch itself, in whatever state it runs,
    writes none of the three and drops the last entry of the log. *)
Lemma back_to_back_failure_rolls_back
    (remote : GeminiService.Remote) (now : Z) (p : string) (s : App.State)
    (img : ImageData) (err : JS.Thrown) :
  App.image s = Some img ->
  GeminiService.editImageWithGemini remote p img (App.mask s) = inl err ->
  let started := fst (App.handleSubmitPrompt_begin now p s) in
  let s' := App.handleSubmitPrompt remote now p s in
  App.messages started = App.messages s ++ [App.newMessage now p] /\
  App.history s' = App.history s /\
  App.historyIndex s' = App.historyIndex s /\
  App.image s' = App.image s /\
  App.messages s' = App.messages s /\
  App.error s' = Some (App.errorMessage err) /\
  (forall cl later,
      let settled := App.handleSubmitPrompt_settle cl (inl err) later in
      App.history settled = App.history later /\
      App.historyIndex settled = App.historyIndex later /\
      App.image settled = App.image later /\
      App.messages settled = JS.slice (App.messages later) 0 (-1)).
Proof.
  intros Himg Hedit. cbv zeta.
  unfold App.handleSubmitPrompt. rewrite (begin_with_image _ _ _ _ Himg).
  unfold App.remoteEdit. cbn [App.currentPrompt App.capturedImage App.capturedMask fst].
  rewrite Hedit.
  split; [reflexivity|].
  destruct (settle_failure_frame
              {| App.currentPrompt := p; App.capturedImage := img;
                 App.capturedHistory := App.history s;
                 App.capturedIndex := App.historyIndex s;
                 App.capturedMask := App.mask s |} err
              (App.setMessages (fun prev => prev ++ [App.newMessage now p])
                 (App.setPrompt EmptyString (App.setError None (App.setLoading true s)))))
    as (Hh & Hi & Him & _ & _ & Hm).
  rewrite Hh, Hi, Him, Hm. cbn [App.messages App.setMessages].
  rewrite slice_drop_last. repeat split.
Qed.

(** C10: an accepted submission empties the input field in the first half
    of the callback, before the remote edit is called; the failure branch
    does not write the field, so after a failed edit the field is still
    empty while the log is back to what it was. *)
Theorem prompt_cleared_before_call_not_restored
    (remote : GeminiService.Remote) (now : Z) (p : string) (s : App.State)
    (img : ImageData) :
  App.image s = Some img ->
  exists started cl,
    App.handleSubmitPrompt_begin now p s = (started, Some cl) /\
    App.currentPrompt cl = p /\
    App.prompt started = EmptyString /\
    (forall err later,
        App.prompt (App.handleSubmitPrompt_settle cl (inl err) later) = App.prompt later) /\
    (forall err,
        App.remoteEdit remote cl = inl err ->
        App.prompt (App.handleSubmitPrompt remote now p s) = EmptyString /\
        App.messages (App.handleSubmitPrompt remote now p s) = App.messages s).
Proof.
  intros Himg. eexists _, _. split; [apply (begin_with_image _ _ _ _ Himg)|].
  split; [reflexivity|]. split; [reflexivity|]. split; [reflexivity|].
  intros err Hedit. unfold App.handleSubmitPrompt.
  rewrite (begin_with_image _ _ _ _ Himg), Hedit.
  split; [reflexivity|]. cbn. apply slice_drop_last.
Qed.

Lemma prompt_cleared_before_call_not_restored_witness :
  exists started cl,
    App.handleSubmitPrompt_begin 1700000000000 "add a hat" Sample.threeVersions
      = (started, Some cl) /\
    App.currentPrompt cl = "add a hat" /\
    App.prompt started = EmptyString /\
    (forall err later,
        App.prompt (App.handleSubmitPrompt_settle cl (inl err) later) = App.prompt later) /\
    (forall err,
        App.remoteEdit Sample.remoteFailing cl = inl err ->
        App.prompt (App.handleSubmitPrompt Sample.remoteFailing 1700000000000
                      "add a hat" Sample.threeVersions) = EmptyString /\
        App.messages (App.handleSubmitPrompt Sample.remoteFailing 1700000000000
                        "add a hat" Sample.threeVersions)
          = App.messages Sample.threeVersions).
Proof.
  apply (prompt_cleared_before_call_not_restored Sample.remoteFailing 1700000000000
           "add a hat" Sample.threeVersions Sample.C).
  reflexivity.
Defined.

(** ** Validation at submit time *)

Lemma trim_blank_not_truthy t : JS.trim t = EmptyString -> JS.truthy (JS.trim t) = false.
Proof. intros ->. reflexivity. Qed.

(** C8, as the specification states it, fails: a blank instruction with an
    image on display is dropped by the form, and no error is shown. *)
Lemma blank_prompt_shows_no_error :
  let s := App.setPrompt "   " Sample.threeVersions in
  (App.image s = None \/ JS.trim (App.prompt s) = EmptyString) /\
  App.error (fst (App.ChatPanel_handleSubmit 1700000000000 s)) = None.
Proof. split; [right|]; reflexivity. Qed.

(** C8, amended: when the image is absent or the instruction is blank
    (nothing is left of it after [trim], which removes every white-space
    and line-terminator code point), the form's submit handler does not
    call the orchestrator: the state is unchanged (no error is set either)
    and no remote call is made.  The orchestrator itself, called without
    an image, sets the error "Please upload an image before submitting a
    prompt.", changes nothing else and makes no remote call; called with
    an image it goes on to the remote call whatever the instruction text
    is. *)
Theorem invalid_submission_changes_nothing (now : Z) (s : App.State) :
  App.image s = None \/ JS.trim (App.prompt s) = EmptyString ->
  App.ChatPanel_handleSubmit now s = (s, None) /\
  forall p,
    match App.image s with
    | None =>
        App.handleSubmitPrompt_begin now p s =
          (App.setError (Some "Please upload an image before submitting a prompt.") s,
           None)
    | Some img =>
        exists started cl,
          App.handleSubmitPrompt_begin now p s = (started, Some cl) /\
          App.currentPrompt cl = p /\ App.capturedImage cl = img
    end.
Proof.
  intros Hbad. split.
  - unfold App.ChatPanel_handleSubmit, App.imageLoaded.
    destruct Hbad as [Himg|Hblank].
    + rewrite Himg, andb_false_r. reflexivity.
    + rewrite (trim_blank_not_truthy _ Hblank). reflexivity.
  - intros p. destruct (App.image s) as [img|] eqn:Himg.
    + eexists _, _. split; [apply (begin_with_image _ _ _ _ Himg)|]. split; reflexivity.
    + unfold App.handleSubmitPrompt_begin. now rewrite Himg.
Qed.

Lemma invalid_submission_changes_nothing_witness :
  let s := SampleBrowser.blankUnicodePrompt in
  (App.image s = Some Sample.C /\
   App.prompt s <> EmptyString /\ JS.trim (App.prompt s) = EmptyString) /\
  App.ChatPanel_handleSubmit 1700000000000 s = (s, None) /\
  forall p,
    exists started cl,
      App.handleSubmitPrompt_begin 1700000000000 p s = (started, Some cl) /\
      App.currentPrompt cl = p /\ App.capturedImage cl = Sample.C.
Proof.
  split; [repeat split; discriminate|].
  apply (invalid_submission_changes_nothing 1700000000000
           SampleBrowser.blankUnicodePrompt).
  right. reflexivity.
Defined.

(** ** Undo and redo *)

Lemma handleUndo_history s : App.history (App.handleUndo s) = App.history s.
Proof. unfold App.handleUndo. now destruct (0 <? App.historyIndex s). Qed.

Lemma handleRedo_history s : App.history (App.handleRedo s) = App.history s.
Proof. unfold App.handleRedo. now destruct (_ <? _). Qed.

(** C9, as the specification states it, fails in its last clause: clearing
    the image shrinks the sequence and an upload grows it, and neither is a
    commit. *)
Lemma reset_also_resizes_history :
  App.history Sample.threeVersions = [Sample.A; Sample.B; Sample.C] /\
  App.history (App.handleClearImage Sample.threeVersions) = [] /\
  App.history App.initial = [] /\
  App.history (App.handleImageUpload_settle (inr Sample.A) App.initial) = [Sample.A].
Proof. repeat split. Qed.

(** What a render leaves in [App]'s state: the handler's result, with the
    mask set to null when the effect on [image] ran. *)
Lemma render_app newImage a d fl up :
  Session.app (Session.render newImage a d fl up) =
    if newImage then App.setMask None a else a.
Proof. unfold Session.render. now destruct newImage. Qed.

Lemma begin_frame now p s :
  let s' := fst (App.handleSubmitPrompt_begin now p s) in
  App.history s' = App.history s /\ App.historyIndex s' = App.historyIndex s /\
  App.image s' = App.image s /\ App.mask s' = App.mask s.
Proof.
  cbv zeta. unfold App.handleSubmitPrompt_begin.
  destruct (App.image s) eqn:Himg; cbn; repeat split; assumption.
Qed.

Lemma form_submit_frame now s :
  let s' := fst (App.ChatPanel_handleSubmit now s) in
  App.history s' = App.history s /\ App.historyIndex s' = App.historyIndex s /\
  App.image s' = App.image s /\ App.mask s' = App.mask s.
Proof.
  cbv zeta. unfold App.ChatPanel_handleSubmit.
  destruct (_ && _); [apply begin_frame | cbn; repeat split].
Qed.

Lemma applyMaskCall_frame mc a :
  let a' := Session.applyMaskCall mc a in
  App.history a' = App.history a /\ App.historyIndex a' = App.historyIndex a /\
  App.image a' = App.image a.
Proof. destruct mc; cbn; repeat split. Qed.

(** How one event changes the three cells of the history view; every case
    not listed leaves them alone. *)
Ltac step_cases ev w :=
  destruct ev; unfold Session.step; cbv zeta;
  repeat match goal with
    | |- context [match Session.uploads w with _ => _ end] =>
        destruct (Session.uploads w)
    | |- context [match Session.inflight w !! ?n with _ => _ end] =>
        destruct (Session.inflight w !! n)
    | |- context [App.ChatPanel_handleSubmit ?now ?a] =>
        let H := fresh "Hform" in
        pose proof (form_submit_frame now a) as H; cbv zeta in H;
        destruct (App.ChatPanel_handleSubmit now a); cbn [fst] in H
    | |- context [ImageDisplay.stopDrawing ?enc ?d] =>
        destruct (ImageDisplay.stopDrawing enc d)
    | |- context [ImageDisplay.handleClearMask ?d] =>
        destruct (ImageDisplay.handleClearMask d)
    | |- context [if App.imageLoaded ?a && negb (App.loading ?a) then _ else _] =>
        destruct (App.imageLoaded a && negb (App.loading a))
    end;
  rewrite ?render_app.

(** C9, amended: [handleUndo] and [handleRedo] never change the sequence;
    undo moves the cursor down by one when it is above 0 and otherwise
    changes nothing, redo moves it up by one when it is below the last
    index and otherwise changes nothing.  The sequence itself is written
    only when an edit comes back, when a file has been read, and on "clear
    image". *)
Theorem undo_redo_keep_history (s : App.State) :
  let k := App.historyIndex s in
  let len := Z.of_nat (length (App.history s)) in
  App.history (App.handleUndo s) = App.history s /\
  App.history (App.handleRedo s) = App.history s /\
  ((0 < k /\ App.historyIndex (App.handleUndo s) = k - 1) \/
   (k <= 0 /\ App.handleUndo s = s)) /\
  ((k < len - 1 /\ App.historyIndex (App.handleRedo s) = k + 1) \/
   (len - 1 <= k /\ App.handleRedo s = s)) /\
  (forall toDataURL ev w,
      Session.writesHistory ev = true \/
      App.history (Session.app (Session.step toDataURL ev w)) = App.history (Session.app w)).
Proof.
  cbv zeta. split; [apply handleUndo_history|]. split; [apply handleRedo_history|].
  split; [|split].
  - unfold App.handleUndo. destruct (Z.ltb_spec 0 (App.historyIndex s)).
    + left. split; [lia | reflexivity].
    + right. split; [lia | reflexivity].
  - unfold App.handleRedo. destruct (Z.ltb_spec (App.historyIndex s) (Z.of_nat (length (App.history s)) - 1)).
    + left. split; [lia | reflexivity].
    + right. split; [lia | reflexivity].
  - intros toDataURL ev w.
    destruct (Session.writesHistory ev) eqn:Hev; [now left | right].
    step_cases ev w; try discriminate Hev; try reflexivity.
    + apply Hform.
    + destruct (App.canUndo _); cbn [App.history App.setMask]; apply handleUndo_history.
    + destruct (App.canRedo _); cbn [App.history App.setMask]; apply handleRedo_history.
    + apply applyMaskCall_frame.
    + apply applyMaskCall_frame.
Qed.

(** ** The cursor and the displayed image along every run *)

Lemma historyConsistent_frame s s' :
  App.history s' = App.history s ->
  App.historyIndex s' = App.historyIndex s ->
  App.image s' = App.image s ->
  historyConsistent s -> historyConsistent s'.
Proof.
  unfold historyConsistent, cursorValid, showsCursorEntry.
  intros -> -> ->. trivial.
Qed.

Lemma historyConsistent_setMask m s :
  historyConsistent s -> historyConsistent (App.setMask m s).
Proof. now apply historyConsistent_frame. Qed.

Lemma historyConsistent_initial : historyConsistent App.initial.
Proof.
  split; [split|]; cbn; [congruence | tauto | reflexivity].
Qed.

Lemma historyConsistent_cleared s : historyConsistent (App.handleClearImage s).
Proof.
  split; [split|]; cbn; [congruence | tauto | reflexivity].
Qed.

Lemma historyConsistent_uploaded r s :
  historyConsistent s -> historyConsistent (App.handleImageUpload_settle r s).
Proof.
  intros H. destruct r as [thrown|img].
  - revert H. now apply historyConsistent_frame.
  - split; [split|]; cbn; [lia | split; [lia | congruence] |].
    exists img. split; reflexivity.
Qed.

(** A commit is consistent whatever the closure captured: the new sequence
    ends with the new image and the cursor is put on its last index. *)
Lemma historyConsistent_settled cl r s :
  historyConsistent s -> historyConsistent (App.handleSubmitPrompt_settle cl r s).
Proof.
  intros H. destruct r as [err|b].
  - revert H. now apply historyConsistent_frame.
  - unfold App.handleSubmitPrompt_settle.
    set (next := App.withBase64 (App.capturedImage cl) b).
    set (kept := JS.slice (App.capturedHistory cl) 0 (App.capturedIndex cl + 1)).
    split; [split|]; cbn [App.history App.historyIndex App.image App.setLoading
                          App.setMask App.setImage App.setHistoryIndex App.setHistory].
    + intros _. rewrite length_app. simpl length. lia.
    + rewrite length_app. simpl length. split; [lia|].
      intros Hnil. now apply app_eq_nil in Hnil as [_ ?].
    + destruct (kept ++ [next]) as [|x rest] eqn:Hnew.
      * now apply app_eq_nil in Hnew as [_ ?].
      * exists next. split; [reflexivity|]. rewrite <- Hnew. apply index_last.
Qed.

Lemma historyConsistent_undo s :
  historyConsistent s -> historyConsistent (App.handleUndo s).
Proof.
  intros [[Hrange Hempty] Hshow]. unfold App.handleUndo.
  destruct (Z.ltb_spec 0 (App.historyIndex s)) as [Hpos|_]; [|now split; [split|]].
  assert (Hne : App.history s <> []) by (intros Hnil; apply Hempty in Hnil; lia).
  specialize (Hrange Hne).
  destruct (index_in_range (App.history s) (App.historyIndex s - 1)) as [x Hx]; [lia|].
  split; [split|]; cbn.
  - intros _. lia.
  - split; [lia | congruence].
  - unfold showsCursorEntry. cbn.
    destruct (App.history s); [congruence|]. exists x. now rewrite Hx.
Qed.

Lemma historyConsistent_redo s :
  historyConsistent s -> historyConsistent (App.handleRedo s).
Proof.
  intros [[Hrange Hempty] Hshow]. unfold App.handleRedo.
  destruct (Z.ltb_spec (App.historyIndex s) (Z.of_nat (length (App.history s)) - 1))
    as [Hlt|_]; [|now split; [split|]].
  assert (Hne : App.history s <> []).
  { intros Hnil. pose proof (proj2 Hempty Hnil). rewrite Hnil in Hlt. simpl in Hlt. lia. }
  specialize (Hrange Hne).
  destruct (index_in_range (App.history s) (App.historyIndex s + 1)) as [x Hx]; [lia|].
  split; [split|]; cbn.
  - intros _. lia.
  - split; [lia | congruence].
  - unfold showsCursorEntry. cbn.
    destruct (App.history s); [congruence|]. exists x. now rewrite Hx.
Qed.

Lemma historyConsistent_step toDataURL ev w :
  historyConsistent (Session.app w) ->
  historyConsistent (Session.app (Session.step toDataURL ev w)).
Proof.
  intros H. step_cases ev w;
    repeat match goal with
      | |- historyConsistent (if ?b then _ else _) => destruct b
      | |- historyConsistent (App.setMask _ _) => apply historyConsistent_setMask
      end;
    auto using historyConsistent_uploaded, historyConsistent_settled,
      historyConsistent_undo, historyConsistent_redo, historyConsistent_cleared.
  - revert H. apply historyConsistent_frame; apply Hform.
  - revert H. apply historyConsistent_frame; apply applyMaskCall_frame.
  - revert H. apply historyConsistent_frame; apply applyMaskCall_frame.
Qed.

Lemma historyConsistent_run toDataURL evs w :
  historyConsistent (Session.app w) ->
  historyConsistent (Session.app (Session.run toDataURL evs w)).
Proof.
  revert w. induction evs as [|ev evs IH]; intros w H; [exact H|].
  apply IH. now apply historyConsistent_step.
Qed.

Lemma historyConsistent_reachable toDataURL w :
  Session.reachable toDataURL w -> historyConsistent (Session.app w).
Proof.
  intros [evs ->]. apply historyConsistent_run, historyConsistent_initial.
Qed.

(** C3: in every state reached from the initial one by any sequence of
    events, the cursor is a valid index when the sequence is non-empty, and
    it is [-1] exactly when the sequence is empty. *)
Theorem cursor_valid_in_every_reachable_state
    (toDataURL : Canvas.t -> string) (w : Session.World) :
  Session.reachable toDataURL w ->
  let s := Session.app w in
  (App.history s <> [] ->
     0 <= App.historyIndex s < Z.of_nat (length (App.history s))) /\
  (App.historyIndex s = -1 <-> App.history s = []).
Proof.
  intros Hreach. exact (proj1 (historyConsistent_reachable _ _ Hreach)).
Qed.

Lemma cursor_valid_in_every_reachable_state_witness :
  let w := Session.run Sample.constantEncoder Sample.scenario Session.initial in
  (App.history (Session.app w) = [Sample.A; Sample.D] /\
   App.historyIndex (Session.app w) = 1) /\
  (App.history (Session.app w) <> [] ->
     0 <= App.historyIndex (Session.app w)
       < Z.of_nat (length (App.history (Session.app w)))) /\
  (App.historyIndex (Session.app w) = -1 <-> App.history (Session.app w) = []).
Proof.
  split; [split; reflexivity|].
  apply (cursor_valid_in_every_reachable_state Sample.constantEncoder
           (Session.run Sample.constantEncoder Sample.scenario Session.initial)).
  exists Sample.scenario. reflexivity.
Defined.

(** C4: in every reachable state the displayed image is the entry under
    the cursor when the sequence is non-empty and is absent when it is
    empty, and whatever event comes next leaves it so. *)
Theorem image_is_cursor_entry_in_every_reachable_state
    (toDataURL : Canvas.t -> string) (w : Session.World) :
  Session.reachable toDataURL w ->
  showsCursorEntry (Session.app w) /\
  forall ev, showsCursorEntry (Session.app (Session.step toDataURL ev w)).
Proof.
  intros Hreach. pose proof (historyConsistent_reachable _ _ Hreach) as H.
  split; [exact (proj2 H)|].
  intros ev. exact (proj2 (historyConsistent_step toDataURL ev w H)).
Qed.

Lemma image_is_cursor_entry_in_every_reachable_state_witness :
  let w := Session.run Sample.constantEncoder Sample.editedAndMasked Session.initial in
  (App.image (Session.app w) = Some Sample.B /\
   JS.index (App.history (Session.app w)) (App.historyIndex (Session.app w))
     = Some Sample.B) /\
  showsCursorEntry (Session.app w) /\
  forall ev, showsCursorEntry (Session.app (Session.step Sample.constantEncoder ev w)).
Proof.
  split; [split; reflexivity|].
  apply (image_is_cursor_entry_in_every_reachable_state Sample.constantEncoder
           (Session.run Sample.constantEncoder Sample.editedAndMasked Session.initial)).
  exists Sample.editedAndMasked. reflexivity.
Defined.

(** ** The mask *)



(** Every event either leaves the displayed image alone or leaves the mask
    null. *)
Lemma step_keeps_image_or_clears_mask toDataURL ev w :
  App.image (Session.app (Session.step toDataURL ev w)) = App.image (Session.app w) \/
  App.mask (Session.app (Session.step toDataURL ev w)) = None.
Proof.
  step_cases ev w; try (left; reflexivity).
  - destruct r; [left|right]; reflexivity.
  - left. apply Hform.
  - destruct (App.remoteEdit remote c); [left|right]; reflexivity.
  - unfold App.canUndo, App.handleUndo.
    destruct (0 <? _); [right|left]; reflexivity.
  - unfold App.canRedo, App.handleRedo.
    destruct (_ <? _); [right|left]; reflexivity.
  - right. now destruct (App.imageLoaded _).
  - left. apply applyMaskCall_frame.
  - left. apply applyMaskCall_frame.
Qed.

(** C6: whenever an event changes the displayed image (a file that has
    been read, undo, redo, an edit that has come back, or any other), the
    mask is null in the state the event leaves; each of the four handlers
    sets it to null in the branch that stores the new image. *)
Theorem image_change_resets_mask
    (toDataURL : Canvas.t -> string) (ev : Session.Event) (w : Session.World) :
  App.image (Session.app (Session.step toDataURL ev w)) <> App.image (Session.app w) ->
  App.mask (Session.app (Session.step toDataURL ev w)) = None /\
  (forall img s, App.mask (App.handleImageUpload_settle (inr img) s) = None) /\
  (forall cl b s, App.mask (App.handleSubmitPrompt_settle cl (inr b) s) = None) /\
  (forall s, App.canUndo s = true -> App.mask (App.handleUndo s) = None) /\
  (forall s, App.canRedo s = true -> App.mask (App.handleRedo s) = None).
Proof.
  intros Hchanged. split.
  - destruct (step_keeps_image_or_clears_mask toDataURL ev w); [contradiction | assumption].
  - split; [reflexivity|]. split; [reflexivity|]. split.
    + intros s. unfold App.canUndo, App.handleUndo. now intros ->.
    + intros s. unfold App.canRedo, App.handleRedo. now intros ->.
Qed.

Lemma image_change_resets_mask_witness :
  let w := Session.run Sample.constantEncoder Sample.editedAndMasked Session.initial in
  let w' := Session.step Sample.constantEncoder Session.Undo w in
  (App.mask (Session.app w) = Some (Sample.png "iVBORw0KGgo=") /\
   App.image (Session.app w) = Some Sample.B /\
   App.image (Session.app w') = Some Sample.A) /\
  App.mask (Session.app w') = None /\
  (forall img s, App.mask (App.handleImageUpload_settle (inr img) s) = None) /\
  (forall cl b s, App.mask (App.handleSubmitPrompt_settle cl (inr b) s) = None) /\
  (forall s, App.canUndo s = true -> App.mask (App.handleUndo s) = None) /\
  (forall s, App.canRedo s = true -> App.mask (App.handleRedo s) = None).
Proof.
  split; [repeat split|].
  apply (image_change_resets_mask Sample.constantEncoder Session.Undo
           (Session.run Sample.constantEncoder Sample.editedAndMasked Session.initial)).
  vm_compute. discriminate.
Defined.

(** ** Data URLs: splitting at the comma *)

Lemma split_without_separator sep s :
  Facts.occurs sep s = false -> JS.split sep s = [s].
Proof.
  induction s as [|a r IH]; simpl; [reflexivity|].
  destruct (Ascii.eqb a sep); simpl; [discriminate|].
  intros Hr. now rewrite (IH Hr).
Qed.

Lemma split_after_free_prefix sep pre rest :
  Facts.occurs sep pre = false ->
  JS.split sep (pre +:+ String sep rest) = pre :: JS.split sep rest.
Proof.
  induction pre as [|a r IH]; simpl.
  - intros _. now rewrite Ascii.eqb_refl.
  - destruct (Ascii.eqb a sep); simpl; [discriminate|].
    intros Hr. now rewrite (IH Hr).
Qed.

Lemma occurs_append sep s t :
  Facts.occurs sep (s +:+ t) = Facts.occurs sep s || Facts.occurs sep t.
Proof.
  induction s as [|a r IH]; simpl; [reflexivity|].
  rewrite IH. now rewrite orb_assoc.
Qed.

Lemma append_associative (s t u : string) : (s +:+ t) +:+ u = s +:+ t +:+ u.
Proof.
  induction s as [|a r IH]; [reflexivity|].
  change (String a ((r +:+ t) +:+ u) = String a (r +:+ t +:+ u)).
  now rewrite IH.
Qed.

Lemma data_url_second_piece header body :
  Facts.occurs ","%char header = false ->
  Facts.occurs ","%char body = false ->
  default EmptyString (JS.split ","%char (header +:+ "," +:+ body) !! 1%nat) = body.
Proof.
  intros Hh Hb. change ("," +:+ body) with (String ","%char body).
  rewrite (split_after_free_prefix _ _ _ Hh), (split_without_separator _ _ Hb).
  reflexivity.
Qed.

(** X1: the mask that a pointer release emits carries exactly what follows the
    comma of the canvas's data URL. *)
Theorem stopDrawing_payload_is_after_comma
    (toDataURL : Canvas.t -> string) (d : ImageDisplay.State) (c : Canvas.t)
    (header body : string) :
  ImageDisplay.isDrawing d = true ->
  ImageDisplay.canvasRef d = Some c ->
  toDataURL (Canvas.withContext Canvas.closePath c) = header +:+ "," +:+ body ->
  Facts.occurs ","%char header = false ->
  Facts.occurs ","%char body = false ->
  snd (ImageDisplay.stopDrawing toDataURL d) =
    Some (Some {| base64 := Some body; mimeType := "image/png" |}) /\
  ImageDisplay.isDrawing (fst (ImageDisplay.stopDrawing toDataURL d)) = false.
Proof.
  intros Hdraw Hc Hurl Hh Hb. unfold ImageDisplay.stopDrawing.
  rewrite Hdraw. cbn. rewrite Hc. cbn. unfold ImageDisplay.payload.
  rewrite Hurl, (data_url_second_piece _ _ Hh Hb). split; reflexivity.
Qed.

Lemma stopDrawing_payload_is_after_comma_witness :
  let d := ImageDisplay.startDrawing (ImageDisplay.mkPointer 10 10)
             SampleBrowser.brushReady in
  snd (ImageDisplay.stopDrawing Sample.constantEncoder d) =
    Some (Some {| base64 := Some "iVBORw0KGgo="; mimeType := "image/png" |}) /\
  ImageDisplay.isDrawing (fst (ImageDisplay.stopDrawing Sample.constantEncoder d)) = false.
Proof.
  eapply (stopDrawing_payload_is_after_comma Sample.constantEncoder
            (ImageDisplay.startDrawing (ImageDisplay.mkPointer 10 10)
               SampleBrowser.brushReady) _ "data:image/png;base64" "iVBORw0KGgo=");
    reflexivity.
Defined.

(** X2: the link that [handleDownload] builds splits back, at its comma, into
    the payload of the displayed image (the text "undefined" when the
    payload is [undefined], as the template literal renders it); without an
    image there is no link. *)
Theorem download_link_round_trip (now : Z) (im : ImageData) :
  let body := default "undefined" (base64 im) in
  Facts.occurs ","%char (mimeType im) = false ->
  Facts.occurs ","%char body = false ->
  exists link,
    Download.handleDownload now (Some im) = Some link /\
    default EmptyString (JS.split ","%char (Download.href link) !! 1%nat) = body /\
    Download.download link = "gemini-edit-" +:+ pretty now +:+ ".png" /\
    Download.handleDownload now None = None.
Proof.
  intros body Hm Hb. eexists. split; [reflexivity|]. split; [|split; reflexivity].
  cbn [Download.href]. fold body.
  assert (Hpre : Facts.occurs ","%char ("data:" +:+ mimeType im +:+ ";base64") = false).
  { rewrite !occurs_append, Hm. reflexivity. }
  rewrite <- (data_url_second_piece _ _ Hpre Hb) at 2.
  do 3 f_equal.
  change (";base64," +:+ body) with (";base64" +:+ "," +:+ body).
  now rewrite !append_associative.
Qed.

Lemma download_link_round_trip_witness :
  exists link,
    Download.handleDownload 1700000000000 (Some Sample.B) = Some link /\
    default EmptyString (JS.split ","%char (Download.href link) !! 1%nat)
      = "QkJC" /\
    Download.download link = "gemini-edit-" +:+ pretty 1700000000000 +:+ ".png" /\
    Download.handleDownload 1700000000000 None = None.
Proof.
  apply (download_link_round_trip 1700000000000 Sample.B); reflexivity.
Defined.

(** ** The form's guard *)

Lemma blank_after_trimStart k s :
  JS.blankFrom 0 (JS.trimStartFrom k s) = JS.blankFrom k s.
Proof.
  revert k. induction s as [|a r IH]; intros k.
  - now destruct k.
  - destruct k as [|k]; cbn [JS.trimStartFrom JS.blankFrom]; [|apply IH].
    destruct (JS.isWhiteSpace (JS.codePointAt (String a r))) eqn:Hws; [apply IH|].
    cbn [JS.blankFrom]. now rewrite Hws.
Qed.

Lemma trimEnd_empty_iff_blank t :
  JS.trimEnd t = EmptyString <-> JS.blank t = true.
Proof.
  unfold JS.trimEnd. destruct t as [|a r]; [now split|].
  cbn [JS.trimEndFrom]. destruct (JS.blank (String a r)); split; congruence.
Qed.

(** [trim] on white space outside ASCII: it is removed at both ends and kept
    inside, a letter whose encoding ends in the byte 160 is not touched, and
    a byte 160 on its own reads as U+00A0. *)
Example trim_removes_unicode_white_space :
  JS.trim (SampleBrowser.nbsp +:+ " add a" +:+ SampleBrowser.ideographicSpace
             +:+ "hat " +:+ SampleBrowser.byteOrderMark +:+ SampleBrowser.nbsp)
    = "add a" +:+ SampleBrowser.ideographicSpace +:+ "hat" /\
  JS.trim (String "195"%char (String "160"%char EmptyString))
    = String "195"%char (String "160"%char EmptyString) /\
  JS.trim (String "160"%char EmptyString) = EmptyString /\
  JS.trim (SampleBrowser.nbsp +:+ SampleBrowser.ideographicSpace
             +:+ SampleBrowser.byteOrderMark) = EmptyString.
Proof. repeat split. Qed.

(** [trim] leaves nothing exactly when every code point of the string is
    white space. *)
Lemma trim_empty_iff_blank s :
  JS.trim s = EmptyString <-> JS.blank s = true.
Proof.
  unfold JS.trim. rewrite trimEnd_empty_iff_blank.
  unfold JS.blank, JS.trimStart. now rewrite blank_after_trimStart.
Qed.

(** The guard of the form, spelled out. *)
Lemma form_guard_spec (now : Z) (s : App.State) :
  (exists cl, snd (App.ChatPanel_handleSubmit now s) = Some cl) <->
  (JS.blank (App.prompt s) = false /\ App.loading s = false /\
   exists img,
     App.image s = Some img /\
     snd (App.ChatPanel_handleSubmit now s) =
       Some {| App.currentPrompt := App.prompt s; App.capturedImage := img;
               App.capturedHistory := App.history s;
               App.capturedIndex := App.historyIndex s;
               App.capturedMask := App.mask s |}).
Proof.
  unfold App.ChatPanel_handleSubmit, App.imageLoaded.
  pose proof (trim_empty_iff_blank (App.prompt s)) as Htrim.
  destruct (JS.blank (App.prompt s)) eqn:Hws.
  - rewrite (proj2 Htrim eq_refl). cbn. split.
    + intros [cl H]. discriminate.
    + intros [H _]. discriminate.
  - destruct (JS.trim (App.prompt s)) eqn:Ht;
      [pose proof (proj1 Htrim eq_refl); discriminate|].
    cbn [JS.truthy andb].
    destruct (App.loading s); cbn.
    + split; [intros [cl H]; discriminate | intros (_ & H & _); discriminate].
    + destruct (App.image s) as [img|] eqn:Himg; cbn.
      * rewrite (begin_with_image _ _ _ _ Himg). cbn. split; eauto 6.
      * split; [intros [cl H]; discriminate | intros (_ & _ & img & H & _); discriminate].
Qed.



(** ** File intake *)

(** X4: whatever makes [fileToData] reject, the upload shows the one load
    error, stops loading and leaves image, history, cursor, log, mask and
    input as they were. *)
Theorem failed_upload_changes_only_error
    {File Img} (b : FileIntake.Browser File Img) (file : File) (s : App.State)
    (thrown : JS.Thrown) :
  FileIntake.fileToData b file = inl thrown ->
  let s' := FileIntake.handleImageUpload b file s in
  App.error s' = Some "Failed to load image. Please try another file." /\
  App.loading s' = false /\
  App.image s' = App.image s /\ App.history s' = App.history s /\
  App.historyIndex s' = App.historyIndex s /\ App.messages s' = App.messages s /\
  App.mask s' = App.mask s /\ App.prompt s' = App.prompt s.
Proof.
  intros Hfail. cbv zeta. unfold FileIntake.handleImageUpload. rewrite Hfail.
  repeat split.
Qed.

Lemma failed_upload_changes_only_error_witness :
  let s := Sample.threeVersions in
  let s' := FileIntake.handleImageUpload SampleBrowser.undecodable "not an image" s in
  App.error s' = Some "Failed to load image. Please try another file." /\
  App.loading s' = false /\
  App.image s' = App.image s /\ App.history s' = App.history s /\
  App.historyIndex s' = App.historyIndex s /\ App.messages s' = App.messages s /\
  App.mask s' = App.mask s /\ App.prompt s' = App.prompt s.
Proof.
  apply (failed_upload_changes_only_error SampleBrowser.undecodable "not an image"
           Sample.threeVersions JS.OtherValue).
  reflexivity.
Defined.

(** X5: [fileToData] resolves only after the file was read as a string, decoded
    and drawn on a canvas with a context, and then always with a PNG whose
    payload is what follows the comma of the canvas's data URL.  The upload
    then starts a new session on it: history of that one image with the
    cursor on it, empty log, no mask, no error, nothing to undo or redo. *)
Theorem upload_starts_new_png_session
    {File Img} (b : FileIntake.Browser File Img) (file : File) (s : App.State)
    (img : ImageData) :
  FileIntake.fileToData b file = inr img ->
  let s' := FileIntake.handleImageUpload b file s in
  mimeType img = "image/png" /\
  (exists url decoded,
      FileIntake.readAsDataURL b file = Some (FileIntake.ResultString url) /\
      FileIntake.decode b url = Some decoded /\
      FileIntake.getContext2d b decoded = true /\
      base64 img =
        Some (default EmptyString
                (JS.split ","%char (FileIntake.toPngDataURL b decoded) !! 1%nat))) /\
  App.image s' = Some img /\ App.history s' = [img] /\ App.historyIndex s' = 0 /\
  App.messages s' = [] /\ App.mask s' = None /\ App.error s' = None /\
  App.loading s' = false /\ App.canUndo s' = false /\ App.canRedo s' = false.
Proof.
  intros Hok. cbv zeta. unfold FileIntake.handleImageUpload. rewrite Hok.
  unfold FileIntake.fileToData in Hok.
  destruct (FileIntake.readAsDataURL b file) as [[url|]|] eqn:Hread; try discriminate.
  destruct (FileIntake.decode b url) as [decoded|] eqn:Hdec; try discriminate.
  destruct (FileIntake.getContext2d b decoded) eqn:Hctx; try discriminate.
  injection Hok as <-.
  split; [reflexivity|]. split; [exists url, decoded; auto|].
  repeat split.
Qed.

Lemma upload_starts_new_png_session_witness :
  let s' := FileIntake.handleImageUpload SampleBrowser.working "/9j/4AAQ"
              Sample.threeVersions in
  mimeType Sample.A = "image/png" /\
  (exists url decoded,
      FileIntake.readAsDataURL SampleBrowser.working "/9j/4AAQ"
        = Some (FileIntake.ResultString url) /\
      FileIntake.decode SampleBrowser.working url = Some decoded /\
      FileIntake.getContext2d SampleBrowser.working decoded = true /\
      base64 Sample.A =
        Some (default EmptyString
                (JS.split ","%char
                   (FileIntake.toPngDataURL SampleBrowser.working decoded)
                 !! 1%nat))) /\
  App.image s' = Some Sample.A /\ App.history s' = [Sample.A] /\
  App.historyIndex s' = 0 /\
  App.messages s' = [] /\ App.mask s' = None /\ App.error s' = None /\
  App.loading s' = false /\ App.canUndo s' = false /\ App.canRedo s' = false.
Proof.
  apply (upload_starts_new_png_session SampleBrowser.working "/9j/4AAQ"
           Sample.threeVersions Sample.A).
  reflexivity.
Defined.

(** ** The response of the remote service *)

(** X6: only the first candidate of the response is read.  The wrapper
    resolves with the [data] field of the first part of that candidate
    that has inline data, as that field is ([undefined] when the blob has
    none); when that candidate has no content, no parts, or no part with
    inline data, it throws the normalized error, whatever the other
    candidates hold. *)
Theorem only_first_candidate_is_read
    (remote : GeminiService.Remote) (c : GeminiService.Candidate)
    (others : list GeminiService.Candidate)
    (prompt : string) (image : ImageData) (mask : option ImageData) :
  remote (GeminiService.buildRequest prompt image mask) =
    inr (GeminiService.mkResponse (Some (c :: others))) ->
  let result := GeminiService.editImageWithGemini remote prompt image mask in
  (forall ct ps pre p post b,
      GeminiService.candContent c = Some ct ->
      GeminiService.parts ct = Some ps ->
      ps = pre ++ p :: post ->
      Forall (fun q => GeminiService.inlineData q = None) pre ->
      GeminiService.inlineData p = Some b ->
      result = inr (GeminiService.data b)) /\
  (GeminiService.candContent c = None \/
   (exists ct,
       GeminiService.candContent c = Some ct /\
       (GeminiService.parts ct = None \/
        exists ps,
          GeminiService.parts ct = Some ps /\
          Forall (fun q => GeminiService.inlineData q = None) ps)) ->
   result = inl (JS.ErrorObj "Failed to process the image edit. Please try again.")).
Proof.
  intros Hanswer. cbv zeta.
  unfold GeminiService.editImageWithGemini, GeminiService.tryBody.
  rewrite Hanswer. unfold GeminiService.responseParts.
  cbn [GeminiService.candidates]. split.
  - intros ct ps pre p post b -> -> Hps Hpre Hp.
    now rewrite (firstInlineData_at _ _ _ _ _ Hps Hpre Hp).
  - intros [-> | (ct & -> & [-> | (ps & -> & Hnone)])]; try reflexivity.
    now rewrite (firstInlineData_absent _ Hnone).
Qed.

Lemma only_first_candidate_is_read_witness :
  GeminiService.editImageWithGemini SampleBrowser.imageInSecondCandidate
    "add a hat" Sample.A None
    = inl (JS.ErrorObj "Failed to process the image edit. Please try again.") /\
  GeminiService.editImageWithGemini (Sample.remoteReturning "RERE")
    "add a hat" Sample.A None = inr (Some "RERE").
Proof.
  split.
  - apply (only_first_candidate_is_read SampleBrowser.imageInSecondCandidate
             (GeminiService.mkCandidate (Some (GeminiService.mkContent (Some
                [GeminiService.textPart "Here is your image."]))))
             [GeminiService.mkCandidate (Some (GeminiService.mkContent (Some
                [GeminiService.mkPart
                   (Some (GeminiService.mkBlob (Some "RERE") (Some "image/png")))
                   None])))]
             "add a hat" Sample.A None eq_refl).
    right. eexists. split; [reflexivity|]. right. eexists. split; [reflexivity|].
    repeat constructor.
  - apply (proj1 (only_first_candidate_is_read (Sample.remoteReturning "RERE")
             (GeminiService.mkCandidate (Some (GeminiService.mkContent (Some
                [GeminiService.textPart "done";
                 GeminiService.mkPart
                   (Some (GeminiService.mkBlob (Some "RERE") (Some "image/png")))
                   None]))))
             [] "add a hat" Sample.A None eq_refl)
             (GeminiService.mkContent (Some
                [GeminiService.textPart "done";
                 GeminiService.mkPart
                   (Some (GeminiService.mkBlob (Some "RERE") (Some "image/png")))
                   None]))
             [GeminiService.textPart "done";
              GeminiService.mkPart
                (Some (GeminiService.mkBlob (Some "RERE") (Some "image/png"))) None]
             [GeminiService.textPart "done"]
             (GeminiService.mkPart
                (Some (GeminiService.mkBlob (Some "RERE") (Some "image/png"))) None)
             []
             (GeminiService.mkBlob (Some "RERE") (Some "image/png")));
      first [reflexivity | repeat constructor].
Defined.

(** ** Moving along the history *)

Lemma consistent_non_empty s img :
  historyConsistent s -> App.image s = Some img ->
  0 <= App.historyIndex s < Z.of_nat (length (App.history s)) /\
  JS.index (App.history s) (App.historyIndex s) = Some img.
Proof.
  intros [[Hrange _] Hshow] Himg. unfold showsCursorEntry in Hshow.
  destruct (App.history s) as [|x rest] eqn:Hh; [congruence|].
  split; [apply Hrange; discriminate|].
  destruct Hshow as (img' & Himg' & Hidx). congruence.
Qed.

Lemma consistent_cursor_bounds s :
  historyConsistent s ->
  -1 <= App.historyIndex s < Z.of_nat (length (App.history s)).
Proof.
  intros [[Hrange Hempty] _].
  destruct (App.history s) as [|x rest] eqn:Hh.
  - rewrite (proj2 Hempty eq_refl). simpl. lia.
  - assert (x :: rest <> []) as Hne by discriminate. specialize (Hrange Hne). lia.
Qed.

Lemma consistent_image_at_cursor s :
  historyConsistent s -> 0 <= App.historyIndex s ->
  JS.index (App.history s) (App.historyIndex s) = App.image s.
Proof.
  intros [[_ Hempty] Hshow] Hpos. unfold showsCursorEntry in Hshow.
  destruct (App.history s) as [|x rest] eqn:Hh.
  - pose proof (proj2 Hempty eq_refl). lia.
  - destruct Hshow as (img & -> & ->). reflexivity.
Qed.

(** Undo and redo undo each other on a consistent state. *)
Lemma undo_redo_inverse (s : App.State) :
  historyConsistent s ->
  (App.canUndo s = true ->
   let s' := App.handleRedo (App.handleUndo s) in
   App.history s' = App.history s /\ App.historyIndex s' = App.historyIndex s /\
   App.image s' = App.image s) /\
  (App.canRedo s = true ->
   let s' := App.handleUndo (App.handleRedo s) in
   App.history s' = App.history s /\ App.historyIndex s' = App.historyIndex s /\
   App.image s' = App.image s).
Proof.
  intros Hs. pose proof (consistent_cursor_bounds s Hs) as Hb.
  split; cbv zeta.
  - unfold App.canUndo. intros Hu. apply Z.ltb_lt in Hu.
    unfold App.handleUndo. rewrite (proj2 (Z.ltb_lt _ _) Hu).
    unfold App.handleRedo. cbn [App.historyIndex App.history App.setMask App.setImage
                                App.setHistoryIndex].
    destruct (Z.ltb_spec (App.historyIndex s - 1)
                (Z.of_nat (length (App.history s)) - 1)); [|lia].
    cbn. replace (App.historyIndex s - 1 + 1) with (App.historyIndex s) by lia.
    repeat split. apply consistent_image_at_cursor; [assumption | lia].
  - unfold App.canRedo. intros Hr. apply Z.ltb_lt in Hr.
    assert (App.historyIndex s <> -1) as Hne.
    { intros Hm. destruct Hs as [[_ Hempty] _]. apply Hempty in Hm.
      rewrite Hm in Hr. simpl in Hr. lia. }
    unfold App.handleRedo. rewrite (proj2 (Z.ltb_lt _ _) Hr).
    unfold App.handleUndo. cbn [App.historyIndex App.history App.setMask App.setImage
                                App.setHistoryIndex].
    destruct (Z.ltb_spec 0 (App.historyIndex s + 1)); [|lia].
    cbn. replace (App.historyIndex s + 1 - 1) with (App.historyIndex s) by lia.
    repeat split. apply consistent_image_at_cursor; [assumption | lia].
Qed.

(** X7: undo followed by redo, and redo followed by undo, come back to the same
    history, cursor and image whenever the first of the two can move. *)
Theorem undo_redo_round_trip (s : App.State) :
  historyConsistent s ->
  (App.canUndo s = true ->
   let s' := App.handleRedo (App.handleUndo s) in
   App.history s' = App.history s /\ App.historyIndex s' = App.historyIndex s /\
   App.image s' = App.image s) /\
  (App.canRedo s = true ->
   let s' := App.handleUndo (App.handleRedo s) in
   App.history s' = App.history s /\ App.historyIndex s' = App.historyIndex s /\
   App.image s' = App.image s).
Proof. exact (undo_redo_inverse s). Qed.

Lemma undo_redo_round_trip_witness :
  let s := App.handleUndo Sample.threeVersions in
  (App.canUndo s = true ->
   let s' := App.handleRedo (App.handleUndo s) in
   App.history s' = App.history s /\ App.historyIndex s' = App.historyIndex s /\
   App.image s' = App.image s) /\
  (App.canRedo s = true ->
   let s' := App.handleUndo (App.handleRedo s) in
   App.history s' = App.history s /\ App.historyIndex s' = App.historyIndex s /\
   App.image s' = App.image s).
Proof.
  apply (undo_redo_round_trip (App.handleUndo Sample.threeVersions)).
  split; [split|]; cbn; [lia | split; [lia | discriminate] | ].
  exists Sample.B. split; reflexivity.
Defined.

(** [canUndo] and [canRedo] against the handlers' own guards. *)
Lemma idle_handlers (s : App.State) :
  (App.canUndo s = false <-> App.handleUndo s = s) /\
  (App.canRedo s = false <-> App.handleRedo s = s).
Proof.
  split.
  - unfold App.canUndo, App.handleUndo.
    destruct (Z.ltb_spec 0 (App.historyIndex s)); split; try reflexivity; try discriminate.
    intros H'. apply (f_equal App.historyIndex) in H'. cbn in H'. lia.
  - unfold App.canRedo, App.handleRedo.
    destruct (Z.ltb_spec (App.historyIndex s) (Z.of_nat (length (App.history s)) - 1));
      split; try reflexivity; try discriminate.
    intros H'. apply (f_equal App.historyIndex) in H'. cbn in H'. lia.
Qed.

(** X8: the undo and redo buttons are disabled exactly when their handlers
    would change nothing. *)
Theorem buttons_disabled_exactly_when_handlers_idle (s : App.State) :
  (App.canUndo s = false <-> App.handleUndo s = s) /\
  (App.canRedo s = false <-> App.handleRedo s = s).
Proof. exact (idle_handlers s). Qed.

Lemma index_in_kept_prefix {A} (h : list A) (k : Z) (x : A) :
  0 <= k < Z.of_nat (length h) ->
  JS.index (JS.slice h 0 (k + 1) ++ [x]) k = JS.index h k.
Proof.
  intros Hk. rewrite slice_prefix by lia. unfold JS.index.
  destruct (Z.ltb_spec k 0); [lia|].
  rewrite lookup_app_l by (rewrite length_take; lia).
  apply lookup_take_lt. lia.
Qed.

(** What a returned edit leaves when its closure is consistent: the
    captured prefix plus the new image, nothing to redo, and one undo shows
    the image the edit was made from. *)
Lemma settled_edit_shape cl b s :
  Facts.closureConsistent cl ->
  let s' := App.handleSubmitPrompt_settle cl (inr b) s in
  let next := App.withBase64 (App.capturedImage cl) b in
  App.history s' =
    take (Z.to_nat (App.capturedIndex cl + 1)) (App.capturedHistory cl) ++ [next] /\
  App.historyIndex s' = App.capturedIndex cl + 1 /\
  App.image s' = Some next /\
  App.canRedo s' = false /\ App.canUndo s' = true /\
  App.image (App.handleUndo s') = Some (App.capturedImage cl) /\
  App.historyIndex (App.handleUndo s') = App.capturedIndex cl.
Proof.
  intros [Hrange Hidx]. cbv zeta.
  unfold App.handleSubmitPrompt_settle, App.canRedo, App.canUndo, App.handleUndo.
  cbn [App.history App.historyIndex App.image App.setLoading App.setMask App.setImage
       App.setHistoryIndex App.setHistory].
  set (next := App.withBase64 (App.capturedImage cl) b).
  assert (Hlen : Z.of_nat (length (JS.slice (App.capturedHistory cl) 0
                                     (App.capturedIndex cl + 1) ++ [next])) - 1
                 = App.capturedIndex cl + 1).
  { rewrite slice_prefix by lia. rewrite length_app, length_take. simpl length. lia. }
  rewrite Hlen.
  destruct (Z.ltb_spec 0 (App.capturedIndex cl + 1)); [|lia].
  cbn [App.history App.historyIndex App.image App.setLoading App.setMask App.setImage
       App.setHistoryIndex App.setHistory].
  replace (App.capturedIndex cl + 1 - 1) with (App.capturedIndex cl) by lia.
  rewrite index_in_kept_prefix by lia.
  rewrite slice_prefix by lia.
  repeat split; try assumption. apply Z.ltb_irrefl.
Qed.

(** X9: a successful edit leaves nothing to redo, and undoing it shows the
    image that was edited, at the cursor it had. *)
Theorem edit_then_undo_shows_source
    (remote : GeminiService.Remote) (now : Z) (p : string) (s : App.State)
    (img : ImageData) (d : option string) :
  historyConsistent s ->
  App.image s = Some img ->
  GeminiService.editImageWithGemini remote p img (App.mask s) = inr d ->
  let s' := App.handleSubmitPrompt remote now p s in
  App.canRedo s' = false /\ App.handleRedo s' = s' /\
  App.canUndo s' = true /\
  App.image (App.handleUndo s') = Some img /\
  App.historyIndex (App.handleUndo s') = App.historyIndex s /\
  App.image (App.handleRedo (App.handleUndo s')) = Some (App.withBase64 img d).
Proof.
  intros Hs Himg Hedit. cbv zeta.
  destruct (consistent_non_empty s img Hs Himg) as [Hrange Hidx].
  unfold App.handleSubmitPrompt. rewrite (begin_with_image _ _ _ _ Himg).
  unfold App.remoteEdit. cbn [App.currentPrompt App.capturedImage App.capturedMask].
  rewrite Hedit.
  set (cl := {| App.currentPrompt := p; App.capturedImage := img;
                App.capturedHistory := App.history s;
                App.capturedIndex := App.historyIndex s;
                App.capturedMask := App.mask s |}).
  set (s1 := App.setMessages _ _).
  assert (Hcl : Facts.closureConsistent cl) by (split; assumption).
  destruct (settled_edit_shape cl d s1 Hcl) as (Hh & Hi & Him & Hredo & Hundo & Hu1 & Hu2).
  set (s' := App.handleSubmitPrompt_settle cl (inr d) s1) in *.
  assert (Hcons : historyConsistent s').
  { apply historyConsistent_settled. revert Hs. now apply historyConsistent_frame. }
  split; [exact Hredo|].
  split; [now apply idle_handlers|].
  split; [exact Hundo|]. split; [exact Hu1|]. split; [exact Hu2|].
  destruct (undo_redo_inverse s' Hcons) as [Hround _].
  destruct (Hround Hundo) as (_ & _ & Hback). rewrite Hback. exact Him.
Qed.

Lemma edit_then_undo_shows_source_witness :
  let s := App.handleUndo Sample.threeVersions in
  let s' := App.handleSubmitPrompt (Sample.remoteReturning "RERE") 1700000000000
              "add a hat" s in
  App.canRedo s' = false /\ App.handleRedo s' = s' /\
  App.canUndo s' = true /\
  App.image (App.handleUndo s') = Some Sample.B /\
  App.historyIndex (App.handleUndo s') = App.historyIndex s /\
  App.image (App.handleRedo (App.handleUndo s')) = Some (App.withBase64 Sample.B (Some "RERE")).
Proof.
  apply (edit_then_undo_shows_source (Sample.remoteReturning "RERE") 1700000000000
           "add a hat" (App.handleUndo Sample.threeVersions) Sample.B (Some "RERE"));
    [ split; [split|]; cbn; [lia | split; [lia | discriminate] | ];
      exists Sample.B; split; reflexivity
    | reflexivity | reflexivity ].
Defined.

(** ** What one submission leaves behind *)

Lemma edit_failure_is_normalized remote p img m err :
  GeminiService.editImageWithGemini remote p img m = inl err ->
  err = GeminiService.normalizedError.
Proof.
  unfold GeminiService.editImageWithGemini.
  destruct (GeminiService.tryBody remote p img m); congruence.
Qed.

(** X10: a submission ends with the spinner off and the input empty; the log
    has gained the instruction exactly when the edit succeeded, and on
    failure the banner shows the normalized message of the wrapper, never
    the handler's own fallback text. *)
Theorem submission_outcome
    (remote : GeminiService.Remote) (now : Z) (p : string) (s : App.State)
    (img : ImageData) :
  App.image s = Some img ->
  let s' := App.handleSubmitPrompt remote now p s in
  App.loading s' = false /\ App.prompt s' = EmptyString /\
  match GeminiService.editImageWithGemini remote p img (App.mask s) with
  | inr d =>
      App.messages s' = App.messages s ++ [App.newMessage now p] /\
      App.error s' = None /\ App.mask s' = None
  | inl _ =>
      App.messages s' = App.messages s /\
      App.error s' = Some "Failed to process the image edit. Please try again." /\
      App.mask s' = App.mask s
  end.
Proof.
  intros Himg. cbv zeta. unfold App.handleSubmitPrompt.
  rewrite (begin_with_image _ _ _ _ Himg).
  unfold App.remoteEdit. cbn [App.currentPrompt App.capturedImage App.capturedMask].
  destruct (GeminiService.editImageWithGemini remote p img (App.mask s)) as [err|d] eqn:Hedit.
  - apply edit_failure_is_normalized in Hedit. subst err.
    repeat split. cbn. apply slice_drop_last.
  - repeat split.
Qed.

Lemma submission_outcome_witness :
  let s := Sample.threeVersions in
  let s' := App.handleSubmitPrompt Sample.remoteFailing 1700000000000 "add a hat" s in
  App.loading s' = false /\ App.prompt s' = EmptyString /\
  match GeminiService.editImageWithGemini Sample.remoteFailing "add a hat" Sample.C
          (App.mask s) with
  | inr d =>
      App.messages s' = App.messages s ++ [App.newMessage 1700000000000 "add a hat"] /\
      App.error s' = None /\ App.mask s' = None
  | inl _ =>
      App.messages s' = App.messages s /\
      App.error s' = Some "Failed to process the image edit. Please try again." /\
      App.mask s' = App.mask s
  end.
Proof.
  apply (submission_outcome Sample.remoteFailing 1700000000000 "add a hat"
           Sample.threeVersions Sample.C).
  reflexivity.
Defined.

Lemma slice_all_but_last {A} (l : list A) : JS.slice l 0 (-1) = removelast l.
Proof.
  induction l as [|x l' _] using rev_ind; [reflexivity|].
  now rewrite slice_drop_last, removelast_last.
Qed.

(** ** Runs of the session *)

Lemma run_snoc toDataURL evs ev w :
  Session.run toDataURL (evs ++ [ev]) w =
    Session.step toDataURL ev (Session.run toDataURL evs w).
Proof. unfold Session.run. now rewrite fold_left_app. Qed.

(** Induction along runs: what holds initially and is kept by every event
    holds in every reachable state. *)
Lemma reachable_invariant toDataURL (P : Session.World -> Prop) :
  P Session.initial ->
  (forall ev w, P w -> P (Session.step toDataURL ev w)) ->
  forall w, Session.reachable toDataURL w -> P w.
Proof.
  intros Hinit Hstep w [evs ->].
  induction evs as [|ev evs IH] using rev_ind; [exact Hinit|].
  rewrite run_snoc. now apply Hstep.
Qed.

Lemma render_inflight newImage a d fl up :
  Session.inflight (Session.render newImage a d fl up) = fl.
Proof. unfold Session.render. now destruct newImage. Qed.

Lemma render_display newImage a d fl up :
  Session.display (Session.render newImage a d fl up) =
    if newImage then ImageDisplay.clearCanvas (Session.mountCanvas a d)
    else Session.mountCanvas a d.
Proof. unfold Session.render. now destruct newImage. Qed.

(** The closure a form submission creates holds the state it was created
    in. *)
Lemma form_closure_captures now s cl :
  snd (App.ChatPanel_handleSubmit now s) = Some cl ->
  App.currentPrompt cl = App.prompt s /\
  App.image s = Some (App.capturedImage cl) /\
  App.capturedHistory cl = App.history s /\
  App.capturedIndex cl = App.historyIndex s /\
  App.capturedMask cl = App.mask s /\
  App.loading s = false.
Proof.
  intros H.
  destruct (proj1 (form_guard_spec now s) (ex_intro _ cl H))
    as (_ & Hload & img & Himg & Hcl).
  rewrite Hcl in H. injection H as <-. cbn. repeat split; assumption.
Qed.

Lemma form_closure_consistent now s cl :
  historyConsistent s ->
  snd (App.ChatPanel_handleSubmit now s) = Some cl ->
  Facts.closureConsistent cl.
Proof.
  intros Hs H. destruct (form_closure_captures now s cl H) as (_ & Himg & Hh & Hi & _).
  unfold Facts.closureConsistent. rewrite Hh, Hi.
  exact (consistent_non_empty s _ Hs Himg).
Qed.

(** As [step_cases], but keeping the equations of the case analysis. *)
Ltac step_eqns ev w :=
  destruct ev; unfold Session.step; cbv zeta;
  repeat match goal with
    | |- context [match Session.uploads w with _ => _ end] =>
        destruct (Session.uploads w) eqn:?
    | |- context [match Session.inflight w !! ?n with _ => _ end] =>
        destruct (Session.inflight w !! n) eqn:?
    | |- context [App.ChatPanel_handleSubmit ?now ?a] =>
        let H := fresh "Hframe" in
        let E := fresh "Hsubmit" in
        pose proof (form_submit_frame now a) as H; cbv zeta in H;
        destruct (App.ChatPanel_handleSubmit now a) as [? ?] eqn:E; cbn [fst] in H
    | |- context [ImageDisplay.stopDrawing ?enc ?d] =>
        let E := fresh "Hstop" in
        destruct (ImageDisplay.stopDrawing enc d) as [? ?] eqn:E
    | |- context [ImageDisplay.handleClearMask ?d] =>
        let E := fresh "Hclear" in
        destruct (ImageDisplay.handleClearMask d) as [? ?] eqn:E
    | |- context [if App.imageLoaded ?a && negb (App.loading ?a) then _ else _] =>
        destruct (App.imageLoaded a && negb (App.loading a)) eqn:?
    end;
  rewrite ?render_app, ?render_inflight, ?render_display.

Lemma inflight_step toDataURL (P : App.Closure -> Prop) ev w :
  Forall P (Session.inflight w) ->
  (forall now cl,
      ev = Session.SubmitForm now ->
      snd (App.ChatPanel_handleSubmit now (Session.app w)) = Some cl -> P cl) ->
  Forall P (Session.inflight (Session.step toDataURL ev w)).
Proof.
  intros Hall Hnew. step_eqns ev w; try assumption.
  - apply Forall_app. split; [assumption|].
    match goal with o : option App.Closure |- _ => destruct o as [cl|] end;
      cbn; constructor; [|constructor].
    apply (Hnew now cl eq_refl). now rewrite Hsubmit.
  - now apply Forall_delete.
Qed.

Lemma closures_consistent_reachable toDataURL w :
  Session.reachable toDataURL w ->
  historyConsistent (Session.app w) /\
  Forall Facts.closureConsistent (Session.inflight w).
Proof.
  revert w. apply reachable_invariant.
  - split; [apply historyConsistent_initial | constructor].
  - intros ev w [Hs Hall]. split; [now apply historyConsistent_step|].
    apply inflight_step; [assumption|].
    intros now cl _. now apply form_closure_consistent.
Qed.

(** X11: however the user has moved on while an edit was in flight (undo, redo,
    clear image, a new upload), the edit that comes back is committed onto
    the history as it was when the edit was submitted: the captured prefix
    plus the new image, cursor on it, nothing to redo; one undo then shows
    the image the edit was made from. *)
Theorem returning_edit_commits_onto_captured_history
    (toDataURL : Canvas.t -> string) (w : Session.World) (n : nat)
    (cl : App.Closure) (remote : GeminiService.Remote) (b : option string) :
  Session.reachable toDataURL w ->
  Session.inflight w !! n = Some cl ->
  App.remoteEdit remote cl = inr b ->
  let w' := Session.step toDataURL (Session.EditSettled n remote) w in
  let next := App.withBase64 (App.capturedImage cl) b in
  App.history (Session.app w') =
    take (Z.to_nat (App.capturedIndex cl + 1)) (App.capturedHistory cl) ++ [next] /\
  Z.of_nat (length (App.history (Session.app w'))) = App.capturedIndex cl + 2 /\
  App.historyIndex (Session.app w') = App.capturedIndex cl + 1 /\
  App.image (Session.app w') = Some next /\
  App.canRedo (Session.app w') = false /\
  App.image (Session.app (Session.step toDataURL Session.Undo w'))
    = Some (App.capturedImage cl) /\
  Session.inflight w' = delete n (Session.inflight w).
Proof.
  intros Hreach Hn Hedit. cbv zeta.
  destruct (closures_consistent_reachable _ _ Hreach) as [_ Hall].
  assert (Hcl : Facts.closureConsistent cl).
  { rewrite Forall_lookup in Hall. exact (Hall n cl Hn). }
  destruct (settled_edit_shape cl b (Session.app w) Hcl)
    as (Hh & Hi & Him & Hredo & Hundo & Hu1 & _).
  assert (Hstep : Session.app (Session.step toDataURL (Session.EditSettled n remote) w)
                  = App.setMask None
                      (App.handleSubmitPrompt_settle cl (inr b) (Session.app w))).
  { unfold Session.step. cbv zeta. rewrite Hn, Hedit. cbn [Session.isOk].
    apply render_app. }
  rewrite Hstep.
  cbn [App.history App.historyIndex App.image App.setMask].
  split; [exact Hh|]. split.
  { rewrite Hh, length_app, length_take. destruct Hcl as [Hrange _]. simpl length. lia. }
  split; [exact Hi|]. split; [exact Him|]. split; [exact Hredo|]. split.
  - unfold Session.step at 1. cbv zeta. rewrite render_app, Hstep.
    change (App.canUndo (App.setMask None ?s)) with (App.canUndo s).
    rewrite Hundo. exact Hu1.
  - unfold Session.step. cbv zeta. rewrite Hn. apply render_inflight.
Qed.

Lemma returning_edit_commits_onto_captured_history_witness :
  let w := Session.run Sample.constantEncoder SampleBrowser.clearedInFlight
             Session.initial in
  let w' := Session.step Sample.constantEncoder
              (Session.EditSettled 0 (Sample.remoteReturning "QkJC")) w in
  (App.history (Session.app w) = [] /\ App.image (Session.app w) = None) /\
  App.history (Session.app w') = [Sample.A; Sample.B] /\
  Z.of_nat (length (App.history (Session.app w'))) = 0 + 2 /\
  App.historyIndex (Session.app w') = 0 + 1 /\
  App.image (Session.app w') = Some Sample.B /\
  App.canRedo (Session.app w') = false /\
  App.image (Session.app (Session.step Sample.constantEncoder Session.Undo w'))
    = Some Sample.A /\
  Session.inflight w' = [].
Proof.
  split; [split; reflexivity|].
  apply (returning_edit_commits_onto_captured_history Sample.constantEncoder
           (Session.run Sample.constantEncoder SampleBrowser.clearedInFlight
              Session.initial)
           0%nat
           {| App.currentPrompt := "make it grayscale"; App.capturedImage := Sample.A;
              App.capturedHistory := [Sample.A]; App.capturedIndex := 0;
              App.capturedMask := None |}
           (Sample.remoteReturning "QkJC") (Some "QkJC")).
  - exists SampleBrowser.clearedInFlight. reflexivity.
  - reflexivity.
  - reflexivity.
Defined.

(** ** How long the history can get *)

Lemma slice_length_le {A} (l : list A) (a b : Z) :
  (length (JS.slice l a b) <= length l)%nat.
Proof. unfold JS.slice. rewrite length_take, length_drop. lia. Qed.

Lemma editsSettled_cons ev evs :
  Facts.editsSettled (ev :: evs) = (Facts.editsSettled [ev] + Facts.editsSettled evs)%nat.
Proof. destruct ev; reflexivity. Qed.

Lemma history_bound_step toDataURL ev w n :
  (length (App.history (Session.app w)) <= S n)%nat ->
  Forall (fun cl => (length (App.capturedHistory cl) <= S n)%nat) (Session.inflight w) ->
  let m := (Facts.editsSettled [ev] + n)%nat in
  (length (App.history (Session.app (Session.step toDataURL ev w))) <= S m)%nat /\
  Forall (fun cl => (length (App.capturedHistory cl) <= S m)%nat)
    (Session.inflight (Session.step toDataURL ev w)).
Proof.
  intros Hh Hall. cbv zeta.
  assert (settled_length : forall k c remote,
             Session.inflight w !! k = Some c ->
             (length (App.history (App.handleSubmitPrompt_settle c
                        (App.remoteEdit remote c) (Session.app w))) <= S (S n))%nat).
  { intros k c remote Hk. rewrite Forall_lookup in Hall.
    pose proof (Hall _ _ Hk) as Hc. cbn beta in Hc.
    destruct (App.remoteEdit remote c) as [err|b]; cbn; [lia|].
    rewrite length_app. simpl length.
    pose proof (slice_length_le (App.capturedHistory c) 0 (App.capturedIndex c + 1)).
    lia. }
  split.
  - step_eqns ev w; cbn [Facts.editsSettled Nat.add];
      repeat match goal with
        | |- context [if ?b then _ else _] => destruct b eqn:?
        end;
      cbn [App.history App.setMask App.setPrompt App.setError App.setLoading];
      rewrite ?handleUndo_history, ?handleRedo_history;
      try lia.
    + cbn. lia.
    + destruct r; cbn; lia.
    + destruct r; cbn; lia.
    + rewrite (proj1 Hframe). lia.
    + eapply settled_length; eassumption.
    + eapply settled_length; eassumption.
    + cbn. lia.
    + cbn. lia.
    + rewrite (proj1 (applyMaskCall_frame _ _)). lia.
    + rewrite (proj1 (applyMaskCall_frame _ _)). lia.
  - apply inflight_step.
    + eapply Forall_impl; [exact Hall|]. intros cl Hcl. cbn beta in *. lia.
    + intros now cl _ Hcl.
      destruct (form_closure_captures _ _ _ Hcl) as (_ & _ & -> & _). lia.
Qed.

Lemma history_bound_run toDataURL evs w n :
  (length (App.history (Session.app w)) <= S n)%nat ->
  Forall (fun cl => (length (App.capturedHistory cl) <= S n)%nat) (Session.inflight w) ->
  (length (App.history (Session.app (Session.run toDataURL evs w)))
     <= S (Facts.editsSettled evs + n))%nat.
Proof.
  revert w n. induction evs as [|ev evs IH]; intros w n Hh Hall; [exact Hh|].
  destruct (history_bound_step toDataURL ev w n Hh Hall) as [Hh' Hall'].
  rewrite editsSettled_cons. change (Session.run toDataURL (ev :: evs) w)
    with (Session.run toDataURL evs (Session.step toDataURL ev w)).
  specialize (IH _ _ Hh' Hall'). lia.
Qed.

(** X12: along any run from the initial state, the history never holds more
    versions than one plus the number of edits that have come back. *)
Theorem history_length_bounded_by_edits
    (toDataURL : Canvas.t -> string) (evs : list Session.Event) :
  (length (App.history (Session.app (Session.run toDataURL evs Session.initial)))
     <= 1 + Facts.editsSettled evs)%nat.
Proof.
  pose proof (history_bound_run toDataURL evs Session.initial 0) as H.
  rewrite Nat.add_0_r in H. apply H; cbn; [lia | constructor].
Qed.

(** ** What the error banner can show *)

Lemma form_submit_error now s :
  App.error (fst (App.ChatPanel_handleSubmit now s)) = App.error s \/
  App.error (fst (App.ChatPanel_handleSubmit now s)) = None.
Proof.
  unfold App.ChatPanel_handleSubmit, App.imageLoaded.
  destruct (JS.truthy _ && negb _); cbn; [|now left].
  destruct (App.image s) as [img|] eqn:Himg; cbn; [|now left].
  rewrite (begin_with_image _ _ _ _ Himg). now right.
Qed.

Lemma handleUndo_error s : App.error (App.handleUndo s) = App.error s.
Proof. unfold App.handleUndo. now destruct (0 <? _). Qed.

Lemma handleRedo_error s : App.error (App.handleRedo s) = App.error s.
Proof. unfold App.handleRedo. now destruct (_ <? _). Qed.

Lemma applyMaskCall_error mc a : App.error (Session.applyMaskCall mc a) = App.error a.
Proof. now destruct mc. Qed.

(** Unfolds the handlers' writes under a projection of [App]'s state. *)
Ltac app_simpl :=
  cbn [App.image App.messages App.prompt App.loading App.error App.history
       App.historyIndex App.mask
       App.setImage App.setMessages App.setPrompt App.setLoading App.setError
       App.setHistory App.setHistoryIndex App.setMask
       App.handleImageUpload_begin App.handleImageUpload_settle
       App.handleSubmitPrompt_settle App.handleClearImage App.errorMessage
       GeminiService.normalizedError].

(** X13: in every reachable state the banner is empty or shows one of two
    texts: the load failure or the normalized edit failure.  The handler's
    fallback "An unknown error occurred." and the orchestrator's "Please
    upload an image before submitting a prompt." are never shown: the
    wrapper always throws an [Error], and the form calls the orchestrator
    only while an image is displayed. *)
Theorem banner_shows_one_of_two_errors
    (toDataURL : Canvas.t -> string) (w : Session.World) :
  Session.reachable toDataURL w ->
  App.error (Session.app w) = None \/
  App.error (Session.app w) = Some "Failed to load image. Please try another file." \/
  App.error (Session.app w) = Some "Failed to process the image edit. Please try again.".
Proof.
  revert w. apply reachable_invariant; [now left|].
  intros ev w IH.
  step_eqns ev w;
    repeat match goal with
      | |- context [if ?b then _ else _] => destruct b eqn:?
      end;
    cbn [App.error App.setMask App.setPrompt App.setError App.setLoading
         App.handleImageUpload_begin App.handleClearImage];
    rewrite ?handleUndo_error, ?handleRedo_error, ?applyMaskCall_error;
    auto.
  - destruct r; app_simpl; auto.
  - destruct r; app_simpl; auto.
  - destruct (form_submit_error now (Session.app w)) as [H|H];
      rewrite Hsubmit in H; cbn [fst] in H; rewrite H; auto.
  - destruct (App.remoteEdit remote c) as [err|b] eqn:Hedit; [discriminate|]. app_simpl. auto.
  - destruct (App.remoteEdit remote c) as [err|b] eqn:Hedit; [|discriminate].
    apply edit_failure_is_normalized in Hedit. subst err. app_simpl. auto.
Qed.

Lemma banner_shows_one_of_two_errors_witness :
  let w := Session.run Sample.constantEncoder
             (SampleBrowser.clearedInFlight
                ++ [Session.EditSettled 0 Sample.remoteTextOnly])
             Session.initial in
  App.error (Session.app w) = None \/
  App.error (Session.app w) = Some "Failed to load image. Please try another file." \/
  App.error (Session.app w) = Some "Failed to process the image edit. Please try again.".
Proof.
  apply (banner_shows_one_of_two_errors Sample.constantEncoder).
  exists (SampleBrowser.clearedInFlight
            ++ [Session.EditSettled 0 Sample.remoteTextOnly]).
  reflexivity.
Defined.

(** ** The overlay along runs *)

Lemma mount_none_iff a d :
  ImageDisplay.canvasRef (Session.mountCanvas a d) = None <-> App.image a = None.
Proof.
  unfold Session.mountCanvas.
  destruct (App.image a), (ImageDisplay.canvasRef d) eqn:Hd; cbn; rewrite ?Hd;
    split; intros H; first [discriminate H | reflexivity].
Qed.

Lemma clearCanvas_none_iff d :
  ImageDisplay.canvasRef (ImageDisplay.clearCanvas d) = None <->
  ImageDisplay.canvasRef d = None.
Proof.
  cbn. destruct (ImageDisplay.canvasRef d); cbn; split; intros H;
    first [discriminate H | reflexivity].
Qed.

Lemma contextReady_mount a d :
  Facts.contextReady d -> Facts.contextReady (Session.mountCanvas a d).
Proof.
  unfold Facts.contextReady, Session.mountCanvas. intros Hd c.
  destruct (App.image a), (ImageDisplay.canvasRef d) eqn:Hc; cbn; try congruence.
  - rewrite Hc. intros [= <-]. now apply Hd.
  - intros [= <-]. discriminate.
Qed.

Lemma clearAll_context c : Canvas.context (Canvas.clearAll c) = Canvas.context c.
Proof. unfold Canvas.clearAll. now destruct (Canvas.context c) eqn:Hcx. Qed.

Lemma contextReady_clear d :
  Facts.contextReady d -> Facts.contextReady (ImageDisplay.clearCanvas d).
Proof.
  unfold Facts.contextReady. cbn. intros Hd c'.
  destruct (ImageDisplay.canvasRef d) as [c|]; cbn; [|discriminate].
  intros [= <-]. rewrite clearAll_context. now apply Hd.
Qed.

Lemma contextReady_same_canvas d d' :
  ImageDisplay.canvasRef d' = ImageDisplay.canvasRef d ->
  Facts.contextReady d -> Facts.contextReady d'.
Proof. unfold Facts.contextReady. now intros ->. Qed.

Lemma withContext_ready f c :
  Canvas.context c <> None -> Canvas.context (Canvas.withContext f c) <> None.
Proof. cbn. now destruct (Canvas.context c). Qed.

Lemma stroke_context c : Canvas.context (Canvas.stroke c) = Canvas.context c.
Proof. unfold Canvas.stroke. now destruct (Canvas.context c) eqn:Hcx. Qed.

Lemma contextReady_startDrawing e d :
  Facts.contextReady d -> Facts.contextReady (ImageDisplay.startDrawing e d).
Proof.
  intros Hd. unfold ImageDisplay.startDrawing.
  destruct (negb _); [assumption|].
  destruct (ImageDisplay.canvasRef d) as [c|] eqn:Hc; [|assumption].
  destruct (Canvas.context c) eqn:Hcx; [|assumption].
  intros c'. cbn. intros [= <-]. apply withContext_ready. congruence.
Qed.

Lemma contextReady_draw e d :
  Facts.contextReady d -> Facts.contextReady (ImageDisplay.draw e d).
Proof.
  intros Hd. unfold ImageDisplay.draw.
  destruct (negb _ || negb _); [assumption|].
  destruct (ImageDisplay.canvasRef d) as [c|] eqn:Hc; [|assumption].
  destruct (Canvas.context c) eqn:Hcx; [|assumption].
  intros c'. cbn. intros [= <-]. rewrite stroke_context.
  apply withContext_ready. congruence.
Qed.

Lemma contextReady_stopDrawing toDataURL d :
  Facts.contextReady d ->
  Facts.contextReady (fst (ImageDisplay.stopDrawing toDataURL d)).
Proof.
  intros Hd. unfold ImageDisplay.stopDrawing.
  destruct (negb _); [assumption|]. cbn.
  destruct (ImageDisplay.canvasRef d) as [c|] eqn:Hc; cbn.
  - intros c'. cbn. intros [= <-]. apply withContext_ready. now apply Hd.
  - intros c'. cbn. congruence.
Qed.

Lemma contextReady_onResize wd h l tp d :
  Facts.contextReady d -> Facts.contextReady (ImageDisplay.onResize wd h l tp d).
Proof.
  unfold Facts.contextReady. cbn. intros Hd c'.
  destruct (ImageDisplay.canvasRef d) as [c|] eqn:Hc; cbn; [|discriminate].
  intros [= <-]. cbn. specialize (Hd c eq_refl). now destruct (Canvas.context c).
Qed.

(** What a pointer release hands to [onMaskChange]. *)
Lemma stopDrawing_emission toDataURL d :
  snd (ImageDisplay.stopDrawing toDataURL d) = None \/
  exists c m,
    ImageDisplay.canvasRef d = Some c /\
    snd (ImageDisplay.stopDrawing toDataURL d) = Some (Some m) /\
    mimeType m = "image/png".
Proof.
  unfold ImageDisplay.stopDrawing.
  destruct (negb _); [now left|]. cbn.
  destruct (ImageDisplay.canvasRef d) as [c|]; [right|now left].
  eexists c, _. repeat split.
Qed.

Lemma toggleBrushMode_canvas d :
  ImageDisplay.canvasRef (ImageDisplay.toggleBrushMode d) = ImageDisplay.canvasRef d.
Proof. unfold ImageDisplay.toggleBrushMode. now destruct (negb _). Qed.

Lemma contextReady_step toDataURL ev w :
  Facts.contextReady (Session.display w) ->
  Facts.contextReady (Session.display (Session.step toDataURL ev w)).
Proof.
  intros Hd.
  step_eqns ev w;
    repeat match goal with
      | |- context [if ?b then _ else _] => destruct b eqn:?
      | |- Facts.contextReady (ImageDisplay.clearCanvas _) => apply contextReady_clear
      | |- Facts.contextReady (Session.mountCanvas _ _) => apply contextReady_mount
      end;
    auto using contextReady_startDrawing, contextReady_draw, contextReady_onResize.
  - revert Hd. apply contextReady_same_canvas. apply toggleBrushMode_canvas.
  - pose proof (contextReady_stopDrawing toDataURL (Session.display w) Hd) as H.
    now rewrite Hstop in H.
  - injection Hclear as <- _. now apply contextReady_clear.
Qed.

(** Where the mask of the next state comes from: it is null, or the mask
    of this state, or what a pointer release over the mounted canvas has
    just emitted. *)
Lemma mask_origin toDataURL ev w :
  let w' := Session.step toDataURL ev w in
  App.mask (Session.app w') = None \/
  App.mask (Session.app w') = App.mask (Session.app w) \/
  exists c m,
    ImageDisplay.canvasRef (Session.display w) = Some c /\
    App.mask (Session.app w') = Some m /\ mimeType m = "image/png".
Proof.
  cbv zeta. step_eqns ev w; try (right; left; reflexivity).
  - destruct r; [right; left | left]; reflexivity.
  - right. left. apply Hframe.
  - destruct (App.remoteEdit remote c); [right; left | left]; reflexivity.
  - unfold App.canUndo, App.handleUndo.
    destruct (0 <? _); [left | right; left]; reflexivity.
  - unfold App.canRedo, App.handleRedo.
    destruct (_ <? _); [left | right; left]; reflexivity.
  - left. now destruct (App.imageLoaded _).
  - destruct (stopDrawing_emission toDataURL (Session.display w))
      as [H|(c & m' & Hc & H & Hpng)]; rewrite Hstop in H; cbn [snd] in H; subst m.
    + right. left. reflexivity.
    + right. right. exists c, m'. auto.
  - injection Hclear as _ <-. now left.
Qed.

(** The invariant that ties the overlay and the mask to the image. *)
Lemma overlay_invariant
    (toDataURL : Canvas.t -> string) (w : Session.World) :
  Session.reachable toDataURL w ->
  (ImageDisplay.canvasRef (Session.display w) = None <-> App.image (Session.app w) = None) /\
  Facts.contextReady (Session.display w) /\
  (forall m, App.mask (Session.app w) = Some m ->
             App.image (Session.app w) <> None /\ mimeType m = "image/png").
Proof.
  revert w. apply reachable_invariant.
  - split; [split; reflexivity|]. split; [intros c; discriminate | intros m; discriminate].
  - intros ev w (Hmount & Hready & Hmask).
    split; [|split; [now apply contextReady_step|]].
    + step_eqns ev w; try assumption;
        repeat match goal with
          | |- context [if ?b then _ else _] => destruct b eqn:?
          end;
        rewrite ?clearCanvas_none_iff, mount_none_iff; app_simpl;
        try reflexivity.
    + intros m Hm.
      assert (Himg : App.image (Session.app (Session.step toDataURL ev w))
                     = App.image (Session.app w)).
      { destruct (step_keeps_image_or_clears_mask toDataURL ev w); congruence. }
      rewrite Himg.
      destruct (mask_origin toDataURL ev w) as [H|[H|(c & m' & Hc & H & Hpng)]].
      * congruence.
      * rewrite H in Hm. now apply Hmask.
      * split; [|congruence].
        intros Hnone. apply Hmount in Hnone. congruence.
Qed.

(** X14: in every reachable state the canvas is mounted exactly when an image
    is displayed, and a mask is held only together with a displayed image
    and is always a PNG. *)
Theorem overlay_follows_image
    (toDataURL : Canvas.t -> string) (w : Session.World) :
  Session.reachable toDataURL w ->
  (ImageDisplay.canvasRef (Session.display w) = None <-> App.image (Session.app w) = None) /\
  (forall m, App.mask (Session.app w) = Some m ->
             App.image (Session.app w) <> None /\ mimeType m = "image/png").
Proof.
  intros Hreach. destruct (overlay_invariant toDataURL w Hreach) as (Hmount & _ & Hmask).
  now split.
Qed.

Lemma overlay_follows_image_witness :
  let w := Session.run Sample.constantEncoder Sample.editedAndMasked Session.initial in
  (App.mask (Session.app w) = Some (Sample.png "iVBORw0KGgo=") /\
   App.image (Session.app w) = Some Sample.B) /\
  (ImageDisplay.canvasRef (Session.display w) = None <-> App.image (Session.app w) = None) /\
  (forall m, App.mask (Session.app w) = Some m ->
             App.image (Session.app w) <> None /\ mimeType m = "image/png").
Proof.
  split; [split; reflexivity|].
  apply (overlay_follows_image Sample.constantEncoder
           (Session.run Sample.constantEncoder Sample.editedAndMasked Session.initial)).
  exists Sample.editedAndMasked. reflexivity.
Defined.

Lemma surfaceBlank_mount a d :
  Facts.surfaceBlank d = true -> Facts.surfaceBlank (Session.mountCanvas a d) = true.
Proof.
  unfold Facts.surfaceBlank, Session.mountCanvas.
  destruct (App.image a), (ImageDisplay.canvasRef d) eqn:Hc; cbn; rewrite ?Hc; auto.
Qed.

Lemma clearAll_keeps_blank c :
  Canvas.isBlank c = true -> Canvas.isBlank (Canvas.clearAll c) = true.
Proof. unfold Canvas.clearAll. now destruct (Canvas.context c). Qed.

Lemma surfaceBlank_clear d :
  Facts.surfaceBlank d = true -> Facts.surfaceBlank (ImageDisplay.clearCanvas d) = true.
Proof.
  unfold Facts.surfaceBlank. cbn.
  destruct (ImageDisplay.canvasRef d); cbn; auto using clearAll_keeps_blank.
Qed.

Lemma surfaceBlank_cleared_when_ready d :
  Facts.contextReady d -> Facts.surfaceBlank (ImageDisplay.clearCanvas d) = true.
Proof.
  unfold Facts.surfaceBlank, Facts.contextReady. cbn. intros Hd.
  destruct (ImageDisplay.canvasRef d) as [c|]; cbn; [|reflexivity].
  specialize (Hd c eq_refl). unfold Canvas.clearAll.
  now destruct (Canvas.context c).
Qed.

Lemma surfaceBlank_same_canvas d d' :
  ImageDisplay.canvasRef d' = ImageDisplay.canvasRef d ->
  Facts.surfaceBlank d = true -> Facts.surfaceBlank d' = true.
Proof. unfold Facts.surfaceBlank. now intros ->. Qed.

Lemma surfaceBlank_startDrawing e d :
  Facts.surfaceBlank d = true ->
  Facts.surfaceBlank (ImageDisplay.startDrawing e d) = true.
Proof.
  intros Hd. unfold ImageDisplay.startDrawing.
  destruct (negb _); [assumption|].
  destruct (ImageDisplay.canvasRef d) as [c|] eqn:Hc; [|assumption].
  destruct (Canvas.context c); [|assumption].
  unfold Facts.surfaceBlank in *. rewrite Hc in Hd. exact Hd.
Qed.

Lemma surfaceBlank_stopDrawing toDataURL d :
  Facts.surfaceBlank d = true ->
  Facts.surfaceBlank (fst (ImageDisplay.stopDrawing toDataURL d)) = true.
Proof.
  intros Hd. unfold ImageDisplay.stopDrawing.
  destruct (negb _); [assumption|].
  unfold Facts.surfaceBlank in *. cbn.
  destruct (ImageDisplay.canvasRef d) as [c|] eqn:Hc; cbn; rewrite ?Hc; auto.
Qed.

Lemma surfaceBlank_onResize wd h l tp d :
  Facts.surfaceBlank (ImageDisplay.onResize wd h l tp d) = true.
Proof. unfold Facts.surfaceBlank. cbn. now destruct (ImageDisplay.canvasRef d). Qed.

Lemma draw_outside_stroke e d :
  ImageDisplay.isDrawing d && ImageDisplay.isBrushMode d = false ->
  ImageDisplay.draw e d = d.
Proof.
  unfold ImageDisplay.draw. intros H.
  now destruct (ImageDisplay.isDrawing d), (ImageDisplay.isBrushMode d).
Qed.

(** X15: nothing but a pointer move inside an open stroke in brush mode paints:
    a surface without strokes is still without strokes after any other
    event. *)
Theorem only_an_open_stroke_paints
    (toDataURL : Canvas.t -> string) (ev : Session.Event) (w : Session.World) :
  Facts.surfaceBlank (Session.display w) = true ->
  Facts.isPointerMove ev = false \/
  ImageDisplay.isDrawing (Session.display w)
    && ImageDisplay.isBrushMode (Session.display w) = false ->
  Facts.surfaceBlank (Session.display (Session.step toDataURL ev w)) = true.
Proof.
  intros Hd Hev.
  step_eqns ev w;
    repeat match goal with
      | |- context [if ?b then _ else _] => destruct b eqn:?
      | |- Facts.surfaceBlank (ImageDisplay.clearCanvas _) = true =>
          apply surfaceBlank_clear
      | |- Facts.surfaceBlank (Session.mountCanvas _ _) = true =>
          apply surfaceBlank_mount
      end;
    auto using surfaceBlank_startDrawing, surfaceBlank_onResize.
  - revert Hd. apply surfaceBlank_same_canvas, toggleBrushMode_canvas.
  - destruct Hev as [Hev|Hev]; [discriminate|].
    now rewrite (draw_outside_stroke _ _ Hev).
  - pose proof (surfaceBlank_stopDrawing toDataURL (Session.display w) Hd) as H.
    now rewrite Hstop in H.
  - injection Hclear as <- _. now apply surfaceBlank_clear.
Qed.

Lemma only_an_open_stroke_paints_witness :
  let w := Session.run Sample.constantEncoder Sample.pressedOnClearedMask
             Session.initial in
  Facts.surfaceBlank
    (Session.display (Session.step Sample.constantEncoder Session.PointerUp w)) = true.
Proof.
  apply (only_an_open_stroke_paints Sample.constantEncoder Session.PointerUp
           (Session.run Sample.constantEncoder Sample.pressedOnClearedMask
              Session.initial)).
  - reflexivity.
  - left. reflexivity.
Defined.

(** X16: in every reachable state, an event that changes the displayed image
    leaves the overlay without a single stroke: what was painted over the
    old image is wiped. *)
Theorem image_change_wipes_overlay
    (toDataURL : Canvas.t -> string) (ev : Session.Event) (w : Session.World) :
  Session.reachable toDataURL w ->
  App.image (Session.app (Session.step toDataURL ev w)) <> App.image (Session.app w) ->
  Facts.surfaceBlank (Session.display (Session.step toDataURL ev w)) = true.
Proof.
  intros Hreach.
  destruct (overlay_invariant _ _ Hreach) as (_ & Hready & _).
  step_eqns ev w; try (intros H; exfalso; apply H; reflexivity).
  - destruct r; cbn [Session.isOk].
    + intros H. exfalso. apply H. reflexivity.
    + intros _. now apply surfaceBlank_cleared_when_ready, contextReady_mount.
  - intros H. exfalso. apply H. apply Hframe.
  - destruct (App.remoteEdit remote c); cbn [Session.isOk].
    + intros H. exfalso. apply H. reflexivity.
    + intros _. now apply surfaceBlank_cleared_when_ready, contextReady_mount.
  - unfold App.canUndo, App.handleUndo. destruct (0 <? _).
    + intros _. now apply surfaceBlank_cleared_when_ready, contextReady_mount.
    + intros H. exfalso. apply H. reflexivity.
  - unfold App.canRedo, App.handleRedo. destruct (_ <? _).
    + intros _. now apply surfaceBlank_cleared_when_ready, contextReady_mount.
    + intros H. exfalso. apply H. reflexivity.
  - unfold App.imageLoaded. destruct (App.image (Session.app w)) eqn:Himg.
    + intros _. now apply surfaceBlank_cleared_when_ready, contextReady_mount.
    + intros H. exfalso. apply H. reflexivity.
  - intros H. exfalso. apply H. apply applyMaskCall_frame.
  - intros H. exfalso. apply H. apply applyMaskCall_frame.
Qed.

Lemma image_change_wipes_overlay_witness :
  let w := Session.run Sample.constantEncoder Sample.editedAndMasked Session.initial in
  (Facts.surfaceBlank (Session.display w) = false) /\
  Facts.surfaceBlank
    (Session.display (Session.step Sample.constantEncoder Session.Undo w)) = true.
Proof.
  split; [reflexivity|].
  apply (image_change_wipes_overlay Sample.constantEncoder Session.Undo
           (Session.run Sample.constantEncoder Sample.editedAndMasked Session.initial)).
  - exists Sample.editedAndMasked. reflexivity.
  - vm_compute. discriminate.
Defined.

(** ** Strokes *)

(** X17: in brush mode over a canvas with a context, a press followed by a move
    paints exactly one stroke, from the press point to the move point, both
    measured from the canvas's corner, with the brush size of the moment of
    the press; it erases (destination-out) when the eraser is selected and
    otherwise paints in the selected colour. *)
Theorem press_then_move_paints_one_stroke
    (e0 e1 : ImageDisplay.PointerEvent) (d : ImageDisplay.State)
    (c : Canvas.t) (cx : Canvas.Context2D) :
  ImageDisplay.isBrushMode d = true ->
  ImageDisplay.canvasRef d = Some c ->
  Canvas.context c = Some cx ->
  let d' := ImageDisplay.draw e1 (ImageDisplay.startDrawing e0 d) in
  let at_ e := Canvas.mkPoint (ImageDisplay.clientX e - Canvas.rectLeft c)
                              (ImageDisplay.clientY e - Canvas.rectTop c) in
  ImageDisplay.isDrawing d' = true /\
  exists c',
    ImageDisplay.canvasRef d' = Some c' /\
    Canvas.painted c' =
      Canvas.painted c ++
        [{| Canvas.strokeOperation :=
              if ImageDisplay.isErasing d then Canvas.DestinationOut
              else Canvas.SourceOver;
            Canvas.strokeColor :=
              if ImageDisplay.isErasing d then Canvas.strokeStyle cx
              else ImageDisplay.brushColor d;
            Canvas.strokeWidth := ImageDisplay.brushSize d;
            Canvas.strokePath := [at_ e0; at_ e1] |}].
Proof.
  intros Hbrush Hc Hcx. cbv zeta.
  destruct d as [drawing brush erasing size colour canvas].
  cbn in Hbrush, Hc. subst brush canvas.
  destruct c as [wd h l tp ctx strokes]. cbn in Hcx. subst ctx.
  destruct erasing; (split; [reflexivity | eexists; split; reflexivity]).
Qed.

Lemma press_then_move_paints_one_stroke_witness :
  let d := SampleBrowser.brushReady in
  let d' := ImageDisplay.draw (ImageDisplay.mkPointer 40 25)
              (ImageDisplay.startDrawing (ImageDisplay.mkPointer 10 10) d) in
  ImageDisplay.isDrawing d' = true /\
  exists c',
    ImageDisplay.canvasRef d' = Some c' /\
    Canvas.painted c' =
      [{| Canvas.strokeOperation := Canvas.SourceOver;
          Canvas.strokeColor := "rgba(239, 68, 68, 0.7)";
          Canvas.strokeWidth := 15;
          Canvas.strokePath := [Canvas.mkPoint 10 10; Canvas.mkPoint 40 25] |}].
Proof.
  apply (press_then_move_paints_one_stroke (ImageDisplay.mkPointer 10 10)
           (ImageDisplay.mkPointer 40 25) SampleBrowser.brushReady Canvas.fresh
           Canvas.defaultContext); reflexivity.
Defined.

(** ** One encoding for every stored image *)

Lemma index_elem {A} (P : A -> Prop) (l : list A) (i : Z) (x : A) :
  Forall P l -> JS.index l i = Some x -> P x.
Proof.
  unfold JS.index. intros Hall. destruct (i <? 0); [discriminate|].
  intros Hi. rewrite Forall_lookup in Hall. exact (Hall _ _ Hi).
Qed.

Lemma slice_Forall {A} (P : A -> Prop) (l : list A) (a b : Z) :
  Forall P l -> Forall P (JS.slice l a b).
Proof. intros H. unfold JS.slice. now apply Forall_take, Forall_drop. Qed.

Lemma png_step toDataURL ev w :
  match ev with Session.FileSettled (inr img) => Facts.isPng img | _ => True end ->
  Forall Facts.isPng (App.history (Session.app w)) ->
  (forall img, App.image (Session.app w) = Some img -> Facts.isPng img) ->
  Forall (fun cl => Facts.isPng (App.capturedImage cl) /\
                    Forall Facts.isPng (App.capturedHistory cl)) (Session.inflight w) ->
  let w' := Session.step toDataURL ev w in
  Forall Facts.isPng (App.history (Session.app w')) /\
  (forall img, App.image (Session.app w') = Some img -> Facts.isPng img) /\
  Forall (fun cl => Facts.isPng (App.capturedImage cl) /\
                    Forall Facts.isPng (App.capturedHistory cl)) (Session.inflight w').
Proof.
  intros Hev Hh Hi Hfl. cbv zeta.
  assert (Hsettled : forall k c remote,
             Session.inflight w !! k = Some c ->
             let s' := App.handleSubmitPrompt_settle c (App.remoteEdit remote c)
                         (Session.app w) in
             Forall Facts.isPng (App.history s') /\
             (forall img, App.image s' = Some img -> Facts.isPng img)).
  { intros k c remote Hk. cbv zeta. rewrite Forall_lookup in Hfl.
    destruct (Hfl _ _ Hk) as [Hci Hch].
    destruct (App.remoteEdit remote c) as [err|b]; app_simpl; [now split|].
    split.
    - apply Forall_app. split; [now apply slice_Forall|].
      constructor; [exact Hci | constructor].
    - intros img [= <-]. exact Hci. }
  split; [|split].
  - step_eqns ev w;
      repeat match goal with
        | |- context [if ?b then _ else _] => destruct b eqn:?
        end;
      app_simpl; rewrite ?handleUndo_history, ?handleRedo_history;
      try assumption; try (eapply Hsettled; eassumption); try constructor.
    + destruct r; app_simpl; [assumption|]. constructor; [exact Hev | constructor].
    + destruct r; app_simpl; [assumption|]. constructor; [exact Hev | constructor].
    + now rewrite (proj1 Hframe).
    + now rewrite (proj1 (applyMaskCall_frame _ _)).
    + now rewrite (proj1 (applyMaskCall_frame _ _)).
  - intros img.
    step_eqns ev w;
      repeat match goal with
        | |- context [if ?b then _ else _] => destruct b eqn:?
        end;
      app_simpl; try (now apply Hi); try (eapply Hsettled; eassumption);
      try discriminate.
    + destruct r; app_simpl; [now apply Hi|]. now intros [= <-].
    + destruct r; app_simpl; [now apply Hi|]. now intros [= <-].
    + rewrite (proj1 (proj2 (proj2 Hframe))). now apply Hi.
    + unfold App.handleUndo. destruct (0 <? _); app_simpl; [|now apply Hi].
      now apply index_elem.
    + unfold App.handleUndo. destruct (0 <? _); app_simpl; [|now apply Hi].
      now apply index_elem.
    + unfold App.handleRedo. destruct (_ <? _); app_simpl; [|now apply Hi].
      now apply index_elem.
    + unfold App.handleRedo. destruct (_ <? _); app_simpl; [|now apply Hi].
      now apply index_elem.
    + rewrite (proj2 (proj2 (applyMaskCall_frame _ _))). now apply Hi.
    + rewrite (proj2 (proj2 (applyMaskCall_frame _ _))). now apply Hi.
  - apply inflight_step; [assumption|].
    intros now cl _ Hcl.
    destruct (form_closure_captures _ _ _ Hcl) as (_ & Himg & -> & _).
    split; [now apply Hi | assumption].
Qed.

Lemma png_run toDataURL evs w :
  Facts.uploadsArePng evs ->
  Forall Facts.isPng (App.history (Session.app w)) ->
  (forall img, App.image (Session.app w) = Some img -> Facts.isPng img) ->
  Forall (fun cl => Facts.isPng (App.capturedImage cl) /\
                    Forall Facts.isPng (App.capturedHistory cl)) (Session.inflight w) ->
  let w' := Session.run toDataURL evs w in
  Forall Facts.isPng (App.history (Session.app w')) /\
  (forall img, App.image (Session.app w') = Some img -> Facts.isPng img) /\
  Forall (fun cl => Facts.isPng (App.capturedImage cl) /\
                    Forall Facts.isPng (App.capturedHistory cl)) (Session.inflight w').
Proof.
  revert w. induction evs as [|ev evs IH]; intros w Hevs Hh Hi Hfl; [now repeat split|].
  apply Forall_cons in Hevs as [Hev Hevs].
  destruct (png_step toDataURL ev w Hev Hh Hi Hfl) as (Hh' & Hi' & Hfl').
  exact (IH _ Hevs Hh' Hi' Hfl').
Qed.

(** X18: when every file that is read arrives as PNG (as [fileToData] delivers
    it), every version in the history, the displayed image and the image
    held by every submission in flight are PNG: an edit keeps the mime type
    of the image it was made from. *)
Theorem every_version_is_png
    (toDataURL : Canvas.t -> string) (evs : list Session.Event) :
  Facts.uploadsArePng evs ->
  let w := Session.run toDataURL evs Session.initial in
  Forall Facts.isPng (App.history (Session.app w)) /\
  (forall img, App.image (Session.app w) = Some img -> Facts.isPng img) /\
  Forall (fun cl => Facts.isPng (App.capturedImage cl)) (Session.inflight w).
Proof.
  intros Hevs. cbv zeta.
  destruct (png_run toDataURL evs Session.initial Hevs) as (Hh & Hi & Hfl);
    [constructor | discriminate | constructor |].
  split; [exact Hh|]. split; [exact Hi|].
  eapply Forall_impl; [exact Hfl|]. now intros cl [H _].
Qed.

Lemma every_version_is_png_witness :
  let w := Session.run Sample.constantEncoder Sample.scenario Session.initial in
  Forall Facts.isPng (App.history (Session.app w)) /\
  (forall img, App.image (Session.app w) = Some img -> Facts.isPng img) /\
  Forall (fun cl => Facts.isPng (App.capturedImage cl)) (Session.inflight w).
Proof.
  apply (every_version_is_png Sample.constantEncoder Sample.scenario).
  repeat constructor.
Defined.

(** ** A failing edit in any state of the session *)

(** X19: when an edit in flight fails, whatever has happened since it was
    submitted, the log loses its last entry if it has one (and only that
    one), the banner shows the normalized message, and history, cursor,
    image and mask stay as they are. *)
Theorem failing_edit_drops_last_log_entry
    (toDataURL : Canvas.t -> string) (w : Session.World) (n : nat)
    (cl : App.Closure) (remote : GeminiService.Remote) (err : JS.Thrown) :
  Session.inflight w !! n = Some cl ->
  App.remoteEdit remote cl = inl err ->
  let w' := Session.step toDataURL (Session.EditSettled n remote) w in
  App.messages (Session.app w') = removelast (App.messages (Session.app w)) /\
  App.error (Session.app w') = Some "Failed to process the image edit. Please try again." /\
  App.loading (Session.app w') = false /\
  App.history (Session.app w') = App.history (Session.app w) /\
  App.historyIndex (Session.app w') = App.historyIndex (Session.app w) /\
  App.image (Session.app w') = App.image (Session.app w) /\
  App.mask (Session.app w') = App.mask (Session.app w) /\
  Session.inflight w' = delete n (Session.inflight w).
Proof.
  intros Hn Hedit. cbv zeta. unfold Session.step. cbv zeta. rewrite Hn, Hedit.
  rewrite render_app, render_inflight. cbn [Session.isOk].
  unfold App.remoteEdit in Hedit. apply edit_failure_is_normalized in Hedit. subst err.
  app_simpl. rewrite slice_all_but_last. repeat split.
Qed.

Lemma failing_edit_drops_last_log_entry_witness :
  let w := Session.run Sample.constantEncoder SampleBrowser.clearedInFlight
             Session.initial in
  let w' := Session.step Sample.constantEncoder
              (Session.EditSettled 0 Sample.remoteFailing) w in
  App.messages (Session.app w') = removelast (App.messages (Session.app w)) /\
  App.error (Session.app w') = Some "Failed to process the image edit. Please try again." /\
  App.loading (Session.app w') = false /\
  App.history (Session.app w') = App.history (Session.app w) /\
  App.historyIndex (Session.app w') = App.historyIndex (Session.app w) /\
  App.image (Session.app w') = App.image (Session.app w) /\
  App.mask (Session.app w') = App.mask (Session.app w) /\
  Session.inflight w' = delete 0%nat (Session.inflight w).
Proof.
  apply (failing_edit_drops_last_log_entry Sample.constantEncoder
           (Session.run Sample.constantEncoder SampleBrowser.clearedInFlight
              Session.initial)
           0%nat
           {| App.currentPrompt := "make it grayscale"; App.capturedImage := Sample.A;
              App.capturedHistory := [Sample.A]; App.capturedIndex := 0;
              App.capturedMask := None |}
           Sample.remoteFailing
           (JS.ErrorObj "Failed to process the image edit. Please try again."));
    reflexivity.
Defined.

(** ** One edit at a time *)

Lemma form_call_sets_loading now s cl :
  snd (App.ChatPanel_handleSubmit now s) = Some cl ->
  App.loading (fst (App.ChatPanel_handleSubmit now s)) = true.
Proof.
  unfold App.ChatPanel_handleSubmit, App.handleSubmitPrompt_begin.
  destruct (_ && _); [|discriminate].
  destruct (App.image s); [reflexivity | discriminate].
Qed.

Lemma form_no_call_keeps_loading now s :
  snd (App.ChatPanel_handleSubmit now s) = None ->
  App.loading (fst (App.ChatPanel_handleSubmit now s)) = App.loading s.
Proof.
  unfold App.ChatPanel_handleSubmit, App.handleSubmitPrompt_begin.
  destruct (_ && _); [|reflexivity].
  destruct (App.image s); [discriminate | reflexivity].
Qed.

Lemma handleUndo_loading s : App.loading (App.handleUndo s) = App.loading s.
Proof. unfold App.handleUndo. now destruct (0 <? _). Qed.

Lemma handleRedo_loading s : App.loading (App.handleRedo s) = App.loading s.
Proof. unfold App.handleRedo. now destruct (_ <? _). Qed.

Lemma applyMaskCall_loading mc a : App.loading (Session.applyMaskCall mc a) = App.loading a.
Proof. now destruct mc. Qed.

(** X20: while the spinner is on for every edit in flight, the form lets no
    second edit start: at most one edit is in flight, and it stays so under
    every event, except when a file load settles while an edit is in
    flight (its [finally] turns the spinner off whatever else is
    pending). *)
Theorem one_edit_in_flight
    (toDataURL : Canvas.t -> string) (ev : Session.Event) (w : Session.World) :
  (Session.inflight w <> [] -> App.loading (Session.app w) = true) ->
  (length (Session.inflight w) <= 1)%nat ->
  Facts.isFileSettled ev = false \/ Session.inflight w = [] ->
  let w' := Session.step toDataURL ev w in
  (Session.inflight w' <> [] -> App.loading (Session.app w') = true) /\
  (length (Session.inflight w') <= 1)%nat.
Proof.
  intros Hload Hlen Hfree. cbv zeta.
  destruct (Facts.isFileSettled ev) eqn:Hev.
  { destruct Hfree as [Hfree|Hnil]; [discriminate|].
    assert (Session.inflight (Session.step toDataURL ev w) = []) as ->.
    { destruct ev; try discriminate Hev. unfold Session.step. cbv zeta.
      destruct (Session.uploads w); rewrite ?render_inflight; assumption. }
    split; [congruence | cbn; lia]. }
  clear Hfree.
  step_eqns ev w; try discriminate Hev; try (split; assumption);
    repeat match goal with
      | |- context [if ?b then _ else _] => destruct b eqn:?
      end;
    app_simpl;
    rewrite ?handleUndo_loading, ?handleRedo_loading, ?applyMaskCall_loading;
    try (split; assumption); try (split; [reflexivity | assumption]).
  - match goal with o : option App.Closure |- _ => destruct o as [cl|] end.
    + pose proof (form_call_sets_loading now (Session.app w) cl) as Hset.
      rewrite Hsubmit in Hset. cbn [fst snd] in Hset.
      destruct (form_closure_captures now (Session.app w) cl) as (_ & _ & _ & _ & _ & Hoff);
        [now rewrite Hsubmit|].
      assert (Session.inflight w = []) as ->.
      { destruct (Session.inflight w) as [|c0 rest] eqn:Hfl; [reflexivity|].
        assert (App.loading (Session.app w) = true) by (apply Hload; discriminate).
        congruence. }
      split; [intros _; now apply Hset | cbn; lia].
    + pose proof (form_no_call_keeps_loading now (Session.app w)) as Hkeep.
      rewrite Hsubmit in Hkeep. cbn [fst snd] in Hkeep. rewrite (Hkeep eq_refl).
      cbn [option_list]. rewrite app_nil_r. now split.
  - assert (delete n (Session.inflight w) = []) as ->; [|split; [congruence | cbn; lia]].
    destruct (Session.inflight w) as [|c0 [|c1 rest]]; cbn in *; try lia;
      destruct n; try discriminate; reflexivity.
  - assert (delete n (Session.inflight w) = []) as ->; [|split; [congruence | cbn; lia]].
    destruct (Session.inflight w) as [|c0 [|c1 rest]]; cbn in *; try lia;
      destruct n; try discriminate; reflexivity.
Qed.

Lemma one_edit_in_flight_witness :
  let w := Session.run Sample.constantEncoder SampleBrowser.clearedInFlight
             Session.initial in
  let w' := Session.step Sample.constantEncoder (Session.SubmitForm 1700000060000) w in
  (Session.inflight w' <> [] -> App.loading (Session.app w') = true) /\
  (length (Session.inflight w') <= 1)%nat.
Proof.
  apply (one_edit_in_flight Sample.constantEncoder (Session.SubmitForm 1700000060000)
           (Session.run Sample.constantEncoder SampleBrowser.clearedInFlight
              Session.initial)).
  - reflexivity.
  - simpl. lia.
  - left. reflexivity.
Defined.

(** ** A failing edit and what happened while it was in flight *)

Lemma form_call_is_begin now s cl :
  snd (App.ChatPanel_handleSubmit now s) = Some cl ->
  App.ChatPanel_handleSubmit now s = App.handleSubmitPrompt_begin now (App.prompt s) s.
Proof.
  unfold App.ChatPanel_handleSubmit. destruct (_ && _); [reflexivity | discriminate].
Qed.

Lemma applyMaskCall_messages mc a :
  App.messages (Session.applyMaskCall mc a) = App.messages a.
Proof. now destruct mc. Qed.

(** A quiet event leaves history, cursor, image, log and the edits in
    flight as they are. *)
Lemma quiet_step toDataURL ev w :
  Facts.quiet ev = true ->
  let w' := Session.step toDataURL ev w in
  App.history (Session.app w') = App.history (Session.app w) /\
  App.historyIndex (Session.app w') = App.historyIndex (Session.app w) /\
  App.image (Session.app w') = App.image (Session.app w) /\
  App.messages (Session.app w') = App.messages (Session.app w) /\
  Session.inflight w' = Session.inflight w.
Proof.
  intros Hq. cbv zeta.
  step_eqns ev w; try discriminate Hq; try (now repeat split).
  - destruct (applyMaskCall_frame m (Session.app w)) as (Hh & Hi & Him).
    now rewrite Hh, Hi, Him, applyMaskCall_messages.
  - destruct (applyMaskCall_frame m (Session.app w)) as (Hh & Hi & Him).
    now rewrite Hh, Hi, Him, applyMaskCall_messages.
Qed.

Lemma quiet_run toDataURL evs w :
  Forall (fun ev => Facts.quiet ev = true) evs ->
  let w' := Session.run toDataURL evs w in
  App.history (Session.app w') = App.history (Session.app w) /\
  App.historyIndex (Session.app w') = App.historyIndex (Session.app w) /\
  App.image (Session.app w') = App.image (Session.app w) /\
  App.messages (Session.app w') = App.messages (Session.app w) /\
  Session.inflight w' = Session.inflight w.
Proof.
  revert w. induction evs as [|ev evs IH]; intros w Hq; [now repeat split|].
  apply Forall_cons in Hq as [Hev Hevs]. cbv zeta.
  change (Session.run toDataURL (ev :: evs) w)
    with (Session.run toDataURL evs (Session.step toDataURL ev w)).
  destruct (IH (Session.step toDataURL ev w) Hevs) as (Hh & Hi & Him & Hm & Hfl).
  destruct (quiet_step toDataURL ev w Hev) as (Hh' & Hi' & Him' & Hm' & Hfl').
  cbv zeta in *. repeat split; congruence.
Qed.

(** C2, as the specification states it, fails: the toolbar stays usable
    while the edit is in flight, and what the user does there is kept.
    After a step back the failed edit leaves the cursor and the image of
    the step back; after "clear image" it leaves the empty history and the
    empty log, not the ones from before the submission. *)
Lemma failed_edit_keeps_navigation_made_in_flight :
  let pre := Session.run Sample.constantEncoder SampleBrowser.beforeSecondEdit
               Session.initial in
  let undone := Session.run Sample.constantEncoder SampleBrowser.failsAfterUndo pre in
  let cleared := Session.run Sample.constantEncoder SampleBrowser.failsAfterClear pre in
  (App.history (Session.app pre) = [Sample.A; Sample.B] /\
   App.historyIndex (Session.app pre) = 1 /\
   App.image (Session.app pre) = Some Sample.B /\
   length (App.messages (Session.app pre)) = 1%nat) /\
  (App.error (Session.app undone)
     = Some "Failed to process the image edit. Please try again." /\
   App.historyIndex (Session.app undone) = 0 /\
   App.image (Session.app undone) = Some Sample.A) /\
  (App.error (Session.app cleared)
     = Some "Failed to process the image edit. Please try again." /\
   App.history (Session.app cleared) = [] /\
   App.historyIndex (Session.app cleared) = -1 /\
   App.image (Session.app cleared) = None /\
   App.messages (Session.app cleared) = []).
Proof. repeat split. Qed.

(** C2, amended: when the remote edit of a submission fails and no upload
    has completed, no undo, redo or "clear image" was made and no other
    edit was submitted or came back while it was in flight, the state after
    the failure has the history, the cursor and the image of the state
    before the submission, and its log is the log from before the
    submission: the one message the submission appended is removed.  The
    failure branch itself, in whatever state it runs, writes neither
    history, cursor nor image and drops the last entry of the log as it
    finds it, so what the user did in flight is kept. *)
Theorem failed_submission_rolls_back
    (toDataURL : Canvas.t -> string) (w : Session.World) (now : Z)
    (cl : App.Closure) (evs : list Session.Event)
    (remote : GeminiService.Remote) (err : JS.Thrown) :
  snd (App.ChatPanel_handleSubmit now (Session.app w)) = Some cl ->
  Forall (fun ev => Facts.quiet ev = true) evs ->
  App.remoteEdit remote cl = inl err ->
  let pre := Session.app w in
  let submitted := Session.step toDataURL (Session.SubmitForm now) w in
  let failed :=
    Session.step toDataURL
      (Session.EditSettled (length (Session.inflight w)) remote)
      (Session.run toDataURL evs submitted) in
  App.messages (Session.app submitted) =
    App.messages pre ++ [App.newMessage now (App.prompt pre)] /\
  App.history (Session.app failed) = App.history pre /\
  App.historyIndex (Session.app failed) = App.historyIndex pre /\
  App.image (Session.app failed) = App.image pre /\
  App.messages (Session.app failed) = App.messages pre /\
  App.error (Session.app failed)
    = Some "Failed to process the image edit. Please try again." /\
  (forall cl' thrown later,
      let settled := App.handleSubmitPrompt_settle cl' (inl thrown) later in
      App.history settled = App.history later /\
      App.historyIndex settled = App.historyIndex later /\
      App.image settled = App.image later /\
      App.messages settled = removelast (App.messages later)).
Proof.
  intros Hcall Hquiet Hedit. cbv zeta.
  destruct (form_closure_captures _ _ _ Hcall) as (_ & Himg & _).
  assert (Hsub : Session.step toDataURL (Session.SubmitForm now) w =
                 Session.render false
                   (fst (App.handleSubmitPrompt_begin now (App.prompt (Session.app w))
                           (Session.app w)))
                   (Session.display w) (Session.inflight w ++ [cl]) (Session.uploads w)).
  { unfold Session.step. cbv zeta.
    rewrite (form_call_is_begin _ _ _ Hcall) in Hcall |- *.
    destruct (App.handleSubmitPrompt_begin now (App.prompt (Session.app w))
                (Session.app w)) as [a' call].
    cbn [snd] in Hcall. subst call. reflexivity. }
  rewrite Hsub, (begin_with_image _ _ _ _ Himg). cbn [fst].
  set (started := App.setMessages _ _).
  set (submitted := Session.render false started _ _ _).
  destruct (quiet_run toDataURL evs submitted Hquiet) as (Hh & Hi & Him & Hm & Hfl).
  cbv zeta in Hh, Hi, Him, Hm, Hfl.
  assert (Hsubmitted : Session.app submitted = started) by apply render_app.
  assert (Hlookup : Session.inflight (Session.run toDataURL evs submitted)
                      !! length (Session.inflight w) = Some cl).
  { rewrite Hfl. unfold submitted. rewrite render_inflight.
    apply list_lookup_middle. reflexivity. }
  split; [now rewrite Hsubmitted|].
  unfold Session.step at 1 2 3 4 5. cbv zeta. rewrite Hlookup, Hedit, !render_app.
  cbn [Session.isOk].
  unfold App.remoteEdit in Hedit. apply edit_failure_is_normalized in Hedit. subst err.
  app_simpl. rewrite Hh, Hi, Him, Hm, Hsubmitted.
  unfold started. app_simpl. rewrite slice_drop_last.
  repeat split. apply slice_all_but_last.
Qed.

Lemma failed_submission_rolls_back_witness :
  let w := Session.run Sample.constantEncoder SampleBrowser.beforeSecondEdit
             Session.initial in
  let pre := Session.app w in
  let submitted :=
    Session.step Sample.constantEncoder (Session.SubmitForm 1700000060000) w in
  let failed :=
    Session.step Sample.constantEncoder
      (Session.EditSettled (length (Session.inflight w)) Sample.remoteFailing)
      (Session.run Sample.constantEncoder SampleBrowser.paintsInFlight submitted) in
  App.messages (Session.app submitted) =
    App.messages pre ++ [App.newMessage 1700000060000 (App.prompt pre)] /\
  App.history (Session.app failed) = App.history pre /\
  App.historyIndex (Session.app failed) = App.historyIndex pre /\
  App.image (Session.app failed) = App.image pre /\
  App.messages (Session.app failed) = App.messages pre /\
  App.error (Session.app failed)
    = Some "Failed to process the image edit. Please try again." /\
  (forall cl' thrown later,
      let settled := App.handleSubmitPrompt_settle cl' (inl thrown) later in
      App.history settled = App.history later /\
      App.historyIndex settled = App.historyIndex later /\
      App.image settled = App.image later /\
      App.messages settled = removelast (App.messages later)).
Proof.
  apply (failed_submission_rolls_back Sample.constantEncoder
           (Session.run Sample.constantEncoder SampleBrowser.beforeSecondEdit
              Session.initial)
           1700000060000
           {| App.currentPrompt := "add a hat"; App.capturedImage := Sample.B;
              App.capturedHistory := [Sample.A; Sample.B]; App.capturedIndex := 1;
              App.capturedMask := None |}
           SampleBrowser.paintsInFlight Sample.remoteFailing
           (JS.ErrorObj "Failed to process the image edit. Please try again."));
    first [reflexivity | repeat constructor].
Defined.
